(** * Manifest model and schema dispatch of sequix/distribution

    A shallow embedding of

    - [manifests.go]: the [Manifest] interface, the process-wide
      [mappings] table, [UnmarshalManifest], [RegisterManifestSchema] and
      [ManifestMediaTypes];
    - [manifest/piddle/manifest.go]: the piddle [Manifest] struct,
      [DeserializedManifest] with its canonical bytes, [FromStruct],
      [UnmarshalJSON], [MarshalJSON], [Payload] and the [init] registration.

    Go strings are [string] (a sequence of 8-bit characters), [[]byte] is
    [list byte]; a nil slice and an empty slice are both the empty list (the
    code only ever asks for their length).  The global map [mappings] is
    passed explicitly.  A method with a pointer receiver returns the updated
    receiver next to its result.

    The packages the code calls but which are not part of the repository
    ([mime], [encoding/json], [go-digest]) are parameters of the definitions
    that use them; module [Reference] gives one executable instance of each,
    used to run the code on concrete payloads. *)

From Stdlib Require Import ZArith Ascii String List.
From Stdlib Require Import Strings.Byte.
From stdpp Require Import base option strings list gmap pretty sorting.

Local Open Scope string_scope.

(** Bytes of a Go [[]byte]. *)
Abbreviation bytes := (list Byte.byte).

(* ===================================================================== *)
(** ** Package [distribution] *)
(* ===================================================================== *)
Module distribution.

(** A Go [error] value.  The repository builds its own errors with
    [fmt.Errorf] and [errors.New]; an error handed back by a library is
    kept with the package it came from. *)
Inductive error : Type :=
| fmt_Errorf (msg : string)
| errors_New (msg : string)
| lib_error (pkg : string) (msg : string).

(** The message of an error (Go's [Error()] method). *)
Definition Error (e : error) : string :=
  match e with
  | fmt_Errorf msg => msg
  | errors_New msg => msg
  | lib_error _ msg => msg
  end.

(** Modelled from the spec: the platform of a descriptor; its
    declaration is not among the sources, the spec only calls it an
    optional part of a Descriptor. *)
Record Platform : Type := mkPlatform {
  Architecture : string;
  OS : string
}.

(** Modelled from the spec: the [Descriptor] struct (declared in a file
    that is not among the sources).  Section 3 of the spec lists digest,
    size, media type, optional platform, optional annotations and
    optional alternate URLs. *)
Record Descriptor : Type := mkDescriptor {
  MediaType : string;
  Size : Z;
  Digest : string;
  URLs : list string;
  Annotations : gmap string string;
  DescPlatform : option Platform
}.

(** The zero value [Descriptor{}]. *)
Definition Descriptor_zero : Descriptor :=
  {| MediaType := ""; Size := 0; Digest := ""; URLs := [];
     Annotations := ∅; DescPlatform := None |}.

(** The [Manifest] interface: the two methods every schema implements. *)
Class Manifest (T : Type) : Type := {
  References : T → list Descriptor;
  Payload : T → string * bytes * option error
}.

(** A value of interface type [Manifest]: a dynamic type, its method set
    and the value itself. *)
Record ManifestValue : Type := mkManifestValue {
  dyn_type : Type;
  dyn_methods : Manifest dyn_type;
  dyn_value : dyn_type
}.
Arguments mkManifestValue {dyn_type dyn_methods} dyn_value.

Definition ManifestValue_References (v : ManifestValue) : list Descriptor :=
  @References _ (dyn_methods v) (dyn_value v).

Definition ManifestValue_Payload (v : ManifestValue)
  : string * bytes * option error :=
  @Payload _ (dyn_methods v) (dyn_value v).

(** What an [UnmarshalFunc] and [UnmarshalManifest] return:
    [(Manifest, Descriptor, error)], the interface value being [nil] or
    not. *)
Abbreviation UnmarshalResult :=
  (option ManifestValue * Descriptor * option error)%type.

(** [type UnmarshalFunc func([]byte) (Manifest, Descriptor, error)] *)
Abbreviation UnmarshalFunc := (bytes → UnmarshalResult).

Section Registry.

(** [mime.ParseMediaType], with the parameter map dropped (the code
    discards it): the media type, or the error. *)
Variable ParseMediaType : string → error + string.

(** The first block of [UnmarshalManifest]: the media type to look
    up.  An empty header is not parsed. *)
Definition headerMediaType (ctHeader : string) : error + string :=
  if decide (ctHeader ≠ "") then ParseMediaType ctHeader else inr "".

(** [UnmarshalManifest(ctHeader, p)] over the table [mappings]. *)
Definition UnmarshalManifest (mappings : gmap string UnmarshalFunc)
    (ctHeader : string) (p : bytes) : UnmarshalResult :=
  match headerMediaType ctHeader with
  | inl err => (None, Descriptor_zero, Some err)
  | inr mediaType =>
      match mappings !! mediaType with
      | Some unmarshalFunc => unmarshalFunc p
      | None =>
          match mappings !! "" with
          | Some unmarshalFunc => unmarshalFunc p
          | None =>
              (None, Descriptor_zero,
               Some (fmt_Errorf
                 ("unsupported manifest media type and no default available: "
                    ++ mediaType)))
          end
      end
  end.

End Registry.

(** [RegisterManifestSchema(mediaType, u)]: the table after the call and
    the error returned. *)
Definition RegisterManifestSchema (mappings : gmap string UnmarshalFunc)
    (mediaType : string) (u : UnmarshalFunc)
  : gmap string UnmarshalFunc * option error :=
  match mappings !! mediaType with
  | Some _ =>
      (mappings,
       Some (fmt_Errorf
         ("manifest media type registration would overwrite existing: "
            ++ mediaType)))
  | None => (<[mediaType := u]> mappings, None)
  end.

(** [ManifestMediaTypes()]: the non-empty keys of the table.  Go ranges
    over a map in no fixed order, so the result is a set. *)
Definition ManifestMediaTypes (mappings : gmap string UnmarshalFunc)
  : gset string :=
  dom mappings ∖ {[ "" ]}.

End distribution.

(* ===================================================================== *)
(** ** Package [manifest] *)
(* ===================================================================== *)
Module manifest.

(** [manifest.Versioned], as the literal in [piddle.SchemaVersion] builds
    it: a schema version and a media type. *)
Record Versioned : Type := mkVersioned {
  SchemaVersion : Z;
  MediaType : string
}.

End manifest.

(* ===================================================================== *)
(** ** Package [piddle] *)
(* ===================================================================== *)
Module piddle.

Definition MediaTypeImageIndex : string :=
  "application/vnd.piddle.image.index.v1+json".
Definition MediaTypeImageConfig : string :=
  "application/vnd.piddle.image.manifest.v1+json".
Definition MediaTypeLayer : string :=
  "application/vnd.piddle.image.layer.v1.tar".
Definition MediaTypeLayerGzip : string :=
  "application/vnd.piddle.image.layer.v1.tar+gzip".
Definition MediaTypeLayerZstd : string :=
  "application/vnd.piddle.image.layer.v1.tar+zstd".
Definition MediaTypeNondistributableLayer : string :=
  "application/vnd.piddle.image.layer.nondistributable.v1.tar".
Definition MediaTypeNondistributableLayerGzip : string :=
  "application/vnd.piddle.image.layer.nondistributable.v1.tar+gzip".
Definition MediaTypeNondistributableLayerZstd : string :=
  "application/vnd.piddle.image.layer.nondistributable.v1.tar+zstd".

Definition SchemaVersion : manifest.Versioned :=
  {| manifest.SchemaVersion := 1;
     manifest.MediaType := MediaTypeImageIndex |}.

(** [type Manifest struct { manifest.Versioned; Config; Layers }] *)
Record Manifest : Type := mkManifest {
  Versioned : manifest.Versioned;
  Config : distribution.Descriptor;
  Layers : list distribution.Descriptor
}.

(** The promoted field [m.MediaType]. *)
Definition MediaType (m : Manifest) : string :=
  manifest.MediaType (Versioned m).

Definition Manifest_zero : Manifest :=
  {| Versioned := {| manifest.SchemaVersion := 0; manifest.MediaType := "" |};
     Config := distribution.Descriptor_zero;
     Layers := [] |}.

(** [func (m Manifest) References() []distribution.Descriptor]: an empty
    slice of capacity [1+len(m.Layers)], then two appends. *)
Definition References (m : Manifest) : list distribution.Descriptor :=
  let references : list distribution.Descriptor := [] in
  let references := (references ++ [Config m])%list in
  let references := (references ++ Layers m)%list in
  references.

(** [func (m Manifest) Target() distribution.Descriptor] *)
Definition Target (m : Manifest) : distribution.Descriptor := Config m.

(** [type DeserializedManifest struct { Manifest; canonical []byte }] *)
Record DeserializedManifest : Type := mkDeserializedManifest {
  dm_Manifest : Manifest;
  canonical : bytes
}.

(** The zero value, what [new(DeserializedManifest)] points to and what
    [var deserialized DeserializedManifest] declares. *)
Definition DeserializedManifest_zero : DeserializedManifest :=
  {| dm_Manifest := Manifest_zero; canonical := [] |}.

(** Go's [make([]byte, n)]: [n] zero bytes. *)
Definition make_bytes (n : nat) : bytes := repeat x00 n.

(** Go's builtin [copy(dst, src)]: the first [min(len(dst), len(src))]
    elements of [dst] are overwritten; the destination after the call. *)
Definition copy (dst src : bytes) : bytes :=
  let n := Nat.min (length dst) (length src) in
  (take n src ++ drop n dst)%list.

(** [func (m *DeserializedManifest) MarshalJSON() ([]byte, error)] *)
Definition MarshalJSON (m : DeserializedManifest)
  : bytes * option distribution.error :=
  if decide (0 < length (canonical m))%nat then (canonical m, None)
  else ([], Some (distribution.errors_New
         "JSON representation not initialized in DeserializedManifest")).

(** [func (m DeserializedManifest) Payload() (string, []byte, error)] *)
Definition Payload (m : DeserializedManifest)
  : string * bytes * option distribution.error :=
  (MediaType (dm_Manifest m), canonical m, None).

(** [*DeserializedManifest] implements [distribution.Manifest]:
    [References] is promoted from the embedded struct. *)
#[global] Instance DeserializedManifest_Manifest
  : distribution.Manifest DeserializedManifest :=
  {| distribution.References := fun m => References (dm_Manifest m);
     distribution.Payload := Payload |}.

Section Codec.

(** [json.MarshalIndent(v, prefix, indent)] at type [*Manifest]. *)
Variable json_MarshalIndent
  : Manifest → string → string → bytes * option distribution.error.

(** [json.Unmarshal(data, &manifest)] for a zero-valued local
    [manifest]: the error, or the struct after a call without error (the
    code drops the struct when there is an error). *)
Variable json_Unmarshal : bytes → distribution.error + Manifest.

(** [digest.FromBytes]. *)
Variable digest_FromBytes : bytes → string.

(** [func FromStruct(m Manifest)], returning a pointer to a
    [DeserializedManifest] and an error: the value pointed to and the
    error; both are returned in every case. *)
Definition FromStruct (m : Manifest)
  : DeserializedManifest * option distribution.error :=
  let deserialized := DeserializedManifest_zero in
  let deserialized :=
    {| dm_Manifest := m; canonical := canonical deserialized |} in
  let '(c, err) := json_MarshalIndent m "" "   " in
  ({| dm_Manifest := dm_Manifest deserialized; canonical := c |}, err).

(** [func (m *DeserializedManifest) UnmarshalJSON(b []byte) error]: the
    receiver after the call and the error. *)
Definition UnmarshalJSON (m : DeserializedManifest) (b : bytes)
  : DeserializedManifest * option distribution.error :=
  let m := {| dm_Manifest := dm_Manifest m;
              canonical := make_bytes (length b) |} in
  let m := {| dm_Manifest := dm_Manifest m;
              canonical := copy (canonical m) b |} in
  match json_Unmarshal (canonical m) with
  | inl err => (m, Some err)
  | inr manifest =>
      if decide (MediaType manifest ≠ MediaTypeImageIndex) then
        (m, Some (distribution.fmt_Errorf
           ("mediaType in manifest should be '" ++ MediaTypeImageIndex
              ++ "' not '" ++ MediaType manifest ++ "'")))
      else
        ({| dm_Manifest := manifest; canonical := canonical m |}, None)
  end.

(** The closure [schema2Func] of [init]. *)
Definition schema2Func : distribution.UnmarshalFunc := fun b =>
  let m := DeserializedManifest_zero in
  let '(m, err) := UnmarshalJSON m b in
  match err with
  | Some err => (None, distribution.Descriptor_zero, Some err)
  | None =>
      let dgst := digest_FromBytes b in
      (Some (distribution.mkManifestValue m),
       {| distribution.Digest := dgst;
          distribution.Size := Z.of_nat (length b);
          distribution.MediaType := MediaTypeImageIndex;
          distribution.URLs := [];
          distribution.Annotations := ∅;
          distribution.DescPlatform := None |},
       err)
  end.

(** [func init()]: the table after registration, or the panic message. *)
Definition init (mappings : gmap string distribution.UnmarshalFunc)
  : string + gmap string distribution.UnmarshalFunc :=
  let '(mappings, err) :=
    distribution.RegisterManifestSchema mappings MediaTypeImageIndex
      schema2Func in
  match err with
  | Some err => inl ("Unable to register manifest: " ++ distribution.Error err)
  | None => inr mappings
  end.

End Codec.

End piddle.

(* ===================================================================== *)
(** ** Executable instances of the library functions *)
(* ===================================================================== *)
(** The definitions above take [mime.ParseMediaType], the JSON codec and
    the digest function as parameters.  This module gives one instance of
    each, so that the code can be run on concrete headers and payloads:
    - [ParseMediaType] follows Go's [mime] package on headers made of
      7-bit characters (parameter continuations are parsed but not
      decoded, since the parameter map is dropped; a repeated parameter
      name is refused);
    - [json_MarshalIndent] and [json_Unmarshal] cover JSON documents with
      objects, arrays, integers, literals and strings of printable 7-bit
      characters;
    - [digest_FromBytes] is a position-weighted checksum, not a
      cryptographic hash. *)
Module Reference.

Import distribution.

(** *** [mime] *)

Definition isSpace (c : ascii) : bool :=
  let n := nat_of_ascii c in
  ((9 <=? n) && (n <=? 13) || (n =? 32))%nat.

Definition toLowerChar (c : ascii) : ascii :=
  let n := nat_of_ascii c in
  if ((65 <=? n) && (n <=? 90))%nat then ascii_of_nat (n + 32) else c.

Fixpoint ToLower (s : string) : string :=
  match s with
  | EmptyString => EmptyString
  | String c s' => String (toLowerChar c) (ToLower s')
  end.

Fixpoint TrimLeft (s : string) : string :=
  match s with
  | EmptyString => EmptyString
  | String c s' => if isSpace c then TrimLeft s' else s
  end.

(** Drops trailing white space: the string, right to left. *)
Fixpoint TrimRight (s : string) : string :=
  match s with
  | EmptyString => EmptyString
  | String c s' =>
      match TrimRight s' with
      | EmptyString => if isSpace c then EmptyString else String c EmptyString
      | t => String c t
      end
  end.

Definition TrimSpace (s : string) : string := TrimRight (TrimLeft s).

(** [strings.Cut(v, ";")]: the text before the first semicolon, and the
    text from that semicolon on ([v[len(base):]]). *)
Fixpoint cutSemicolon (v : string) : string * string :=
  match v with
  | EmptyString => (EmptyString, EmptyString)
  | String c v' =>
      if Ascii.eqb c ";" then (EmptyString, v)
      else let '(base, rest) := cutSemicolon v' in (String c base, rest)
  end.

Fixpoint containsChar (set : string) (c : ascii) : bool :=
  match set with
  | EmptyString => false
  | String d set' => Ascii.eqb c d || containsChar set' c
  end.

(** The double quote and the backslash. *)
Definition dquote : ascii := "034"%char.
Definition backslash : ascii := "092"%char.

(** The special characters of RFC 1521 and RFC 2045: round, angle and
    square brackets, at sign, comma, semicolon, colon, backslash, double
    quote, slash, question mark and equals sign. *)
Definition tspecials : string :=
  "()<>@,;:" ++ String backslash (String dquote "/[]?=").

Definition isTSpecial (c : ascii) : bool := containsChar tspecials c.

Definition isTokenChar (c : ascii) : bool :=
  let n := nat_of_ascii c in
  ((32 <? n) && (n <? 127))%nat && negb (isTSpecial c).

(** [consumeToken]: the longest prefix of token characters and the rest. *)
Fixpoint consumeToken (v : string) : string * string :=
  match v with
  | EmptyString => (EmptyString, EmptyString)
  | String c v' =>
      if isTokenChar c then
        let '(tok, rest) := consumeToken v' in (String c tok, rest)
      else (EmptyString, v)
  end.

Definition checkMediaTypeDisposition (s : string) : option error :=
  let '(typ, rest) := consumeToken s in
  if decide (typ = "") then Some (lib_error "mime" "mime: no media type")
  else if decide (rest = "") then None
  else
    match rest with
    | String "/" rest1 =>
        let '(subtype, rest2) := consumeToken rest1 in
        if decide (subtype = "") then
          Some (lib_error "mime" "mime: expected token after slash")
        else if decide (rest2 = "") then None
        else Some (lib_error "mime"
                     "mime: unexpected content after media subtype")
    | _ => Some (lib_error "mime" "mime: expected slash after first token")
    end.

(** The body of a quoted string, after the opening quote: the value and
    the text after the closing quote, or nothing when the quote is not
    closed or a line break occurs. *)
Fixpoint consumeQuoted (v : string) : option (string * string) :=
  match v with
  | EmptyString => None
  | String c v' =>
      if Ascii.eqb c dquote then Some (EmptyString, v')
      else
        let plain :=
          if Ascii.eqb c "013" || Ascii.eqb c "010" then None
          else
            match consumeQuoted v' with
            | Some (s, rest) => Some (String c s, rest)
            | None => None
            end in
        match v' with
        | String d v'' =>
            if Ascii.eqb c backslash && isTSpecial d then
              match consumeQuoted v'' with
              | Some (s, rest) => Some (String d s, rest)
              | None => None
              end
            else plain
        | EmptyString => plain
        end
  end.

Definition consumeValue (v : string) : string * string :=
  match v with
  | EmptyString => (EmptyString, EmptyString)
  | String c v' =>
      if Ascii.eqb c dquote then
        match consumeQuoted v' with
        | Some r => r
        | None => (EmptyString, v)
        end
      else consumeToken v
  end.

(** [consumeMediaParam]: [(param, value, rest)]; an empty [param] means
    that nothing was consumed. *)
Definition consumeMediaParam (v : string) : string * string * string :=
  match TrimLeft v with
  | String ";" rest =>
      let rest := TrimLeft rest in
      let '(param, rest) := consumeToken rest in
      let param := ToLower param in
      if decide (param = "") then ("", "", v)
      else
        match TrimLeft rest with
        | String "=" rest =>
            let rest := TrimLeft rest in
            let '(value, rest2) := consumeValue rest in
            if decide (value = "" ∧ rest2 = rest) then ("", "", v)
            else (param, value, rest2)
        | _ => ("", "", v)
        end
  | _ => ("", "", v)
  end.

(** The parameter loop of [ParseMediaType]: the error, if any.  [seen]
    holds the parameter names met so far.  Every round consumes at least
    one character, so a [fuel] above the length of [v] is never used up. *)
Fixpoint parseParams (fuel : nat) (seen : list string) (v : string)
  : option error :=
  match fuel with
  | O => Some (lib_error "mime" "mime: invalid media parameter")
  | S fuel' =>
      let v := TrimLeft v in
      if decide (v = "") then None
      else
        let '(key, value, rest) := consumeMediaParam v in
        if decide (key = "") then
          if decide (TrimSpace rest = ";") then None
          else Some (lib_error "mime" "mime: invalid media parameter")
        else if decide (key ∈ seen) then
          Some (lib_error "mime" "mime: duplicate parameter name")
        else parseParams fuel' (key :: seen) rest
  end.

(** [mime.ParseMediaType], media type or error. *)
Definition ParseMediaType (v : string) : error + string :=
  let '(base, rest) := cutSemicolon v in
  let mediatype := TrimSpace (ToLower base) in
  match checkMediaTypeDisposition mediatype with
  | Some err => inl err
  | None =>
      match parseParams (S (String.length rest)) [] rest with
      | Some err => inl err
      | None => inr mediatype
      end
  end.

(** *** [encoding/json]: documents *)

#[warnings="-register-all"]
Inductive json : Type :=
| JNull
| JBool (b : bool)
| JNum (n : Z)
| JStr (s : string)
| JArr (l : list json)
| JObj (l : list (string * json)).

Definition syntaxError (msg : string) : error :=
  lib_error "encoding/json" ("invalid character: " ++ msg).

(** White space of JSON: space, tab, line feed, carriage return. *)
Definition isJsonSpace (c : ascii) : bool :=
  Ascii.eqb c " " || Ascii.eqb c "009" || Ascii.eqb c "010"
  || Ascii.eqb c "013".

Fixpoint skipSpace (s : string) : string :=
  match s with
  | String c s' => if isJsonSpace c then skipSpace s' else s
  | EmptyString => EmptyString
  end.

Definition hexDigit (c : ascii) : option N :=
  let n := N_of_ascii c in
  if ((48 <=? n) && (n <=? 57))%N then Some (n - 48)%N
  else if ((97 <=? n) && (n <=? 102))%N then Some (n - 87)%N
  else if ((65 <=? n) && (n <=? 70))%N then Some (n - 55)%N
  else None.

(** The UTF-8 encoding of a code point of the basic plane. *)
Definition utf8 (cp : N) : string :=
  if (cp <? 128)%N then String (ascii_of_N cp) EmptyString
  else if (cp <? 2048)%N then
    String (ascii_of_N (192 + cp / 64))
      (String (ascii_of_N (128 + cp mod 64)) EmptyString)
  else
    String (ascii_of_N (224 + cp / 4096))
      (String (ascii_of_N (128 + (cp / 64) mod 64))
         (String (ascii_of_N (128 + cp mod 64)) EmptyString)).

(** The inside of a string literal, after its opening quote. *)
Fixpoint parseString (s : string) : option (string * string) :=
  match s with
  | EmptyString => None
  | String c s' =>
      if Ascii.eqb c dquote then Some (EmptyString, s')
      else if (N_of_ascii c <? 32)%N then None
      else if Ascii.eqb c backslash then
        match s' with
        | String "u" (String h1 (String h2 (String h3 (String h4 s'')))) =>
            match hexDigit h1, hexDigit h2, hexDigit h3, hexDigit h4 with
            | Some a, Some b, Some c, Some d =>
                let cp := (((a * 16 + b) * 16 + c) * 16 + d)%N in
                if ((55296 <=? cp) && (cp <=? 57343))%N then None
                else
                  match parseString s'' with
                  | Some (t, rest) => Some (utf8 cp ++ t, rest)
                  | None => None
                  end
            | _, _, _, _ => None
            end
        | String e s'' =>
            let unescaped : option ascii :=
              if Ascii.eqb e dquote then Some dquote
              else if Ascii.eqb e backslash then Some backslash
              else if Ascii.eqb e "/" then Some "/"%char
              else if Ascii.eqb e "b" then Some "008"%char
              else if Ascii.eqb e "f" then Some "012"%char
              else if Ascii.eqb e "n" then Some "010"%char
              else if Ascii.eqb e "r" then Some "013"%char
              else if Ascii.eqb e "t" then Some "009"%char
              else None in
            match unescaped, parseString s'' with
            | Some d, Some (t, rest) => Some (String d t, rest)
            | _, _ => None
            end
        | EmptyString => None
        end
      else
        match parseString s' with
        | Some (t, rest) => Some (String c t, rest)
        | None => None
        end
  end.

Definition isDigit (c : ascii) : bool :=
  let n := N_of_ascii c in ((48 <=? n) && (n <=? 57))%N.

(** A run of decimal digits, read onto the accumulator [acc]. *)
Fixpoint parseDigits (acc : Z) (s : string) : Z * string :=
  match s with
  | String c s' =>
      if isDigit c then
        parseDigits (acc * 10 + Z.of_N (N_of_ascii c) - 48)%Z s'
      else (acc, s)
  | EmptyString => (acc, EmptyString)
  end.

(** An integer literal: no leading zero, no fraction, no exponent. *)
Definition parseNumber (s : string) : option (Z * string) :=
  let '(neg, s1) :=
    match s with
    | String "-" s' => (true, s')
    | _ => (false, s)
    end in
  match s1 with
  | String c s2 =>
      if isDigit c then
        let '(n, rest) :=
          if Ascii.eqb c "0" then (0%Z, s2) else parseDigits 0 s1 in
        match rest with
        | String d _ =>
            if isDigit d || Ascii.eqb d "." || Ascii.eqb d "e"
               || Ascii.eqb d "E" then None
            else Some (if neg then (- n)%Z else n, rest)
        | EmptyString => Some (if neg then (- n)%Z else n, rest)
        end
      else None
  | EmptyString => None
  end.

Definition stripPrefix (pre s : string) : option string :=
  if String.prefix pre s
  then Some (String.substring (String.length pre)
               (String.length s - String.length pre) s)
  else None.

(** One JSON value, leading white space skipped, and the text after it;
    the tails of an array and of an object after their first element. *)
Fixpoint parseValue (fuel : nat) (s : string) : option (json * string) :=
  match fuel with
  | O => None
  | S fuel' =>
      match skipSpace s with
      | String "{" r =>
          match skipSpace r with
          | String "}" r' => Some (JObj [], r')
          | r1 =>
              match parseMembers fuel' r1 with
              | Some (l, r') => Some (JObj l, r')
              | None => None
              end
          end
      | String "[" r =>
          match skipSpace r with
          | String "]" r' => Some (JArr [], r')
          | r1 =>
              match parseElements fuel' r1 with
              | Some (l, r') => Some (JArr l, r')
              | None => None
              end
          end
      | String c r as s1 =>
          if Ascii.eqb c dquote then
            match parseString r with
            | Some (t, r') => Some (JStr t, r')
            | None => None
            end
          else
            match stripPrefix "true" s1, stripPrefix "false" s1,
                  stripPrefix "null" s1 with
            | Some r', _, _ => Some (JBool true, r')
            | _, Some r', _ => Some (JBool false, r')
            | _, _, Some r' => Some (JNull, r')
            | _, _, _ =>
                match parseNumber s1 with
                | Some (n, r') => Some (JNum n, r')
                | None => None
                end
            end
      | EmptyString => None
      end
  end
with parseElements (fuel : nat) (s : string) : option (list json * string) :=
  match fuel with
  | O => None
  | S fuel' =>
      match parseValue fuel' s with
      | Some (v, r) =>
          match skipSpace r with
          | String "," r' =>
              match parseElements fuel' r' with
              | Some (l, r'') => Some (v :: l, r'')
              | None => None
              end
          | String "]" r' => Some ([v], r')
          | _ => None
          end
      | None => None
      end
  end
with parseMembers (fuel : nat) (s : string)
  : option (list (string * json) * string) :=
  match fuel with
  | O => None
  | S fuel' =>
      match skipSpace s with
      | String c r =>
          if Ascii.eqb c dquote then
            match parseString r with
            | Some (k, r1) =>
                match skipSpace r1 with
                | String ":" r2 =>
                    match parseValue fuel' r2 with
                    | Some (v, r3) =>
                        match skipSpace r3 with
                        | String "," r4 =>
                            match parseMembers fuel' r4 with
                            | Some (l, r5) => Some ((k, v) :: l, r5)
                            | None => None
                            end
                        | String "}" r4 => Some ([(k, v)], r4)
                        | _ => None
                        end
                    | None => None
                    end
                | _ => None
                end
            | None => None
            end
          else None
      | EmptyString => None
      end
  end.

(** A whole document: one value and nothing but white space after it.
    Every call of the parser consumes a character or descends once, so a
    fuel of twice the length and two is never used up. *)
Definition parseDocument (data : string) : option json :=
  match parseValue (2 * String.length data + 2) data with
  | Some (v, rest) =>
      if decide (skipSpace rest = EmptyString) then Some v else None
  | None => None
  end.

(** *** [encoding/json]: decoding into the structs *)

Definition kindOf (j : json) : string :=
  match j with
  | JNull => "null" | JBool _ => "bool" | JNum _ => "number"
  | JStr _ => "string" | JArr _ => "array" | JObj _ => "object"
  end.

Definition typeError (j : json) (field : string) : error :=
  lib_error "encoding/json"
    ("json: cannot unmarshal " ++ kindOf j ++ " into Go struct field "
       ++ field).

(** Keys name fields without regard to letter case. *)
Definition fieldIs (name key : string) : bool :=
  String.eqb (ToLower key) (ToLower name).

(** The members of an object, applied in order to the value being
    filled. *)
Fixpoint foldFields {A : Type} (f : A → string → json → error + A)
    (l : list (string * json)) (a : A) : error + A :=
  match l with
  | [] => inr a
  | (k, v) :: l' =>
      match f a k v with
      | inl e => inl e
      | inr a' => foldFields f l' a'
      end
  end.

(** The elements of an array, each decoded on its own. *)
Fixpoint mapElements {A : Type} (f : json → error + A) (l : list json)
  : error + list A :=
  match l with
  | [] => inr []
  | v :: l' =>
      match f v, mapElements f l' with
      | inl e, _ => inl e
      | _, inl e => inl e
      | inr a, inr r => inr (a :: r)
      end
  end.

Definition decodeString (field : string) (j : json) (old : string)
  : error + string :=
  match j with
  | JStr s => inr s
  | JNull => inr old
  | _ => inl (typeError j field)
  end.

Definition decodeInt (field : string) (j : json) (old : Z) : error + Z :=
  match j with
  | JNum n => inr n
  | JNull => inr old
  | _ => inl (typeError j field)
  end.

Definition decodePlatform (j : json) (old : option Platform)
  : error + option Platform :=
  match j with
  | JNull => inr None
  | JObj l =>
      let start := default (mkPlatform "" "") old in
      match foldFields (fun p k v =>
              if fieldIs "architecture" k then
                match decodeString "Platform.architecture" v (Architecture p)
                with
                | inl e => inl e
                | inr s => inr (mkPlatform s (OS p))
                end
              else if fieldIs "os" k then
                match decodeString "Platform.os" v (OS p) with
                | inl e => inl e
                | inr s => inr (mkPlatform (Architecture p) s)
                end
              else inr p) l start with
      | inl e => inl e
      | inr p => inr (Some p)
      end
  | _ => inl (typeError j "Descriptor.platform")
  end.

Definition decodeDescriptor (j : json) (old : Descriptor)
  : error + Descriptor :=
  match j with
  | JNull => inr old
  | JObj l =>
      foldFields (fun d k v =>
        if fieldIs "mediaType" k then
          match decodeString "Descriptor.mediaType" v (MediaType d) with
          | inl e => inl e
          | inr s => inr (mkDescriptor s (Size d) (Digest d) (URLs d)
                            (Annotations d) (DescPlatform d))
          end
        else if fieldIs "size" k then
          match decodeInt "Descriptor.size" v (Size d) with
          | inl e => inl e
          | inr n => inr (mkDescriptor (MediaType d) n (Digest d) (URLs d)
                            (Annotations d) (DescPlatform d))
          end
        else if fieldIs "digest" k then
          match decodeString "Descriptor.digest" v (Digest d) with
          | inl e => inl e
          | inr s => inr (mkDescriptor (MediaType d) (Size d) s (URLs d)
                            (Annotations d) (DescPlatform d))
          end
        else if fieldIs "urls" k then
          match v with
          | JNull => inr d
          | JArr us =>
              match mapElements (fun u => decodeString "Descriptor.urls" u "")
                      us with
              | inl e => inl e
              | inr us' => inr (mkDescriptor (MediaType d) (Size d) (Digest d)
                                  us' (Annotations d) (DescPlatform d))
              end
          | _ => inl (typeError v "Descriptor.urls")
          end
        else if fieldIs "annotations" k then
          match v with
          | JNull => inr d
          | JObj kvs =>
              match foldFields (fun (m : gmap string string) k' v' =>
                      match decodeString "Descriptor.annotations" v' "" with
                      | inl e => inl e
                      | inr s => inr (<[k' := s]> m)
                      end) kvs (Annotations d) with
              | inl e => inl e
              | inr m => inr (mkDescriptor (MediaType d) (Size d) (Digest d)
                                (URLs d) m (DescPlatform d))
              end
          | _ => inl (typeError v "Descriptor.annotations")
          end
        else if fieldIs "platform" k then
          match decodePlatform v (DescPlatform d) with
          | inl e => inl e
          | inr p => inr (mkDescriptor (MediaType d) (Size d) (Digest d)
                            (URLs d) (Annotations d) p)
          end
        else inr d) l old
  | _ => inl (typeError j "Descriptor")
  end.

Definition decodeManifest (j : json) (old : piddle.Manifest)
  : error + piddle.Manifest :=
  match j with
  | JNull => inr old
  | JObj l =>
      foldFields (fun (m : piddle.Manifest) k v =>
        let ver := piddle.Versioned m in
        if fieldIs "schemaVersion" k then
          match decodeInt "Manifest.schemaVersion" v
                  (manifest.SchemaVersion ver) with
          | inl e => inl e
          | inr n =>
              inr (piddle.mkManifest
                     (manifest.mkVersioned n (manifest.MediaType ver))
                     (piddle.Config m) (piddle.Layers m))
          end
        else if fieldIs "mediaType" k then
          match decodeString "Manifest.mediaType" v (manifest.MediaType ver)
          with
          | inl e => inl e
          | inr s =>
              inr (piddle.mkManifest
                     (manifest.mkVersioned (manifest.SchemaVersion ver) s)
                     (piddle.Config m) (piddle.Layers m))
          end
        else if fieldIs "config" k then
          match decodeDescriptor v (piddle.Config m) with
          | inl e => inl e
          | inr d => inr (piddle.mkManifest ver d (piddle.Layers m))
          end
        else if fieldIs "layers" k then
          match v with
          | JNull => inr m
          | JArr ls =>
              match mapElements (fun x => decodeDescriptor x Descriptor_zero)
                      ls with
              | inl e => inl e
              | inr ds => inr (piddle.mkManifest ver (piddle.Config m) ds)
              end
          | _ => inl (typeError v "Manifest.layers")
          end
        else inr m) l old
  | _ => inl (typeError j "Manifest")
  end.

(** [json.Unmarshal] into a zero-valued [piddle.Manifest]. *)
Definition json_Unmarshal (data : bytes) : error + piddle.Manifest :=
  match parseDocument (string_of_list_byte data) with
  | None => inl (syntaxError "the input is not a JSON document")
  | Some j => decodeManifest j piddle.Manifest_zero
  end.

(** *** [encoding/json]: encoding the structs *)

Definition hexChar (n : N) : ascii :=
  if (n <? 10)%N then ascii_of_N (48 + n) else ascii_of_N (87 + n).

(** A string literal: quote and backslash escaped, control characters
    and the characters [<], [>], [&] written as [\u00xx]. *)
Fixpoint encodeChars (s : string) : string :=
  match s with
  | EmptyString => EmptyString
  | String c s' =>
      let n := N_of_ascii c in
      let out :=
        if Ascii.eqb c dquote then String backslash (String dquote "")
        else if Ascii.eqb c backslash then String backslash (String backslash "")
        else if Ascii.eqb c "010" then String backslash "n"
        else if Ascii.eqb c "013" then String backslash "r"
        else if Ascii.eqb c "009" then String backslash "t"
        else if (n <? 32)%N || Ascii.eqb c "<" || Ascii.eqb c ">"
                || Ascii.eqb c "&" then
          String backslash
            (String "u" (String "0" (String "0"
               (String (hexChar (n / 16)) (String (hexChar (n mod 16)) "")))))
        else String c "" in
      out ++ encodeChars s'
  end.

Definition encodeString (s : string) : string :=
  String dquote (encodeChars s ++ String dquote "").

Fixpoint repeatString (s : string) (n : nat) : string :=
  match n with
  | O => EmptyString
  | S n' => s ++ repeatString s n'
  end.

(** A document written the way [json.MarshalIndent] lays it out: each
    element and member on a line of its own, [prefix] and [depth] copies
    of [indent] in front, a space after the colon. *)
Fixpoint encodeValue (prefix indent : string) (depth : nat) (j : json)
  : string :=
  let newline d := String "010" (prefix ++ repeatString indent d) in
  match j with
  | JNull => "null"
  | JBool true => "true"
  | JBool false => "false"
  | JNum n => pretty n
  | JStr s => encodeString s
  | JArr [] => "[]"
  | JArr l =>
      "[" ++ newline (S depth)
      ++ (fix elements (l : list json) : string :=
            match l with
            | [] => EmptyString
            | x :: l' =>
                encodeValue prefix indent (S depth) x
                ++ match l' with
                   | [] => EmptyString
                   | _ => "," ++ newline (S depth) ++ elements l'
                   end
            end) l
      ++ newline depth ++ "]"
  | JObj [] => "{}"
  | JObj l =>
      "{" ++ newline (S depth)
      ++ (fix members (l : list (string * json)) : string :=
            match l with
            | [] => EmptyString
            | (k, x) :: l' =>
                encodeString k ++ ": "
                ++ encodeValue prefix indent (S depth) x
                ++ match l' with
                   | [] => EmptyString
                   | _ => "," ++ newline (S depth) ++ members l'
                   end
            end) l
      ++ newline depth ++ "}"
  end.

(** A member kept only when [keep] holds (the [omitempty] option). *)
Definition member (keep : bool) (k : string) (v : json)
  : list (string * json) :=
  if keep then [(k, v)] else [].

Definition platformJson (p : Platform) : json :=
  JObj [("architecture", JStr (Architecture p)); ("os", JStr (OS p))].

(** The keys of a map are written in increasing order. *)
Definition keyLe (a b : string * string) : Prop := String.leb a.1 b.1 = true.

#[local] Instance keyLe_dec : RelDecision keyLe :=
  λ a b, decide (String.leb a.1 b.1 = true).

Definition sortedEntries (m : gmap string string) : list (string * string) :=
  merge_sort keyLe (map_to_list m).

Definition descriptorJson (d : Descriptor) : json :=
  JObj (member (negb (String.eqb (MediaType d) "")) "mediaType"
          (JStr (MediaType d))
        ++ member (negb (Z.eqb (Size d) 0)) "size" (JNum (Size d))
        ++ member (negb (String.eqb (Digest d) "")) "digest"
             (JStr (Digest d))
        ++ member (negb (Nat.eqb (length (URLs d)) 0)) "urls"
             (JArr (map JStr (URLs d)))
        ++ member (negb (Nat.eqb (size (Annotations d)) 0)) "annotations"
             (JObj (map (λ kv, (kv.1, JStr kv.2))
                      (sortedEntries (Annotations d))))
        ++ match DescPlatform d with
           | Some p => [("platform", platformJson p)]
           | None => []
           end)%list.

Definition manifestJson (m : piddle.Manifest) : json :=
  JObj ([("schemaVersion",
          JNum (manifest.SchemaVersion (piddle.Versioned m)))]
        ++ member (negb (String.eqb (piddle.MediaType m) "")) "mediaType"
             (JStr (piddle.MediaType m))
        ++ [("config", descriptorJson (piddle.Config m));
            ("layers", JArr (map descriptorJson (piddle.Layers m)))])%list.

(** [json.MarshalIndent] at type [*piddle.Manifest]; it does not fail. *)
Definition json_MarshalIndent (m : piddle.Manifest) (prefix indent : string)
  : bytes * option error :=
  (list_byte_of_string (encodeValue prefix indent 0 (manifestJson m)), None).

(** *** A digest *)

(** A position-weighted checksum of the bytes, written like a digest. *)
Definition checksum_FromBytes (b : bytes) : string :=
  "checksum:" ++ pretty (fold_left
    (λ acc x, (acc * 31 + Z.of_N (Byte.to_N x)) mod 4294967296)%Z b 7%Z).

End Reference.

(* ===================================================================== *)
(** ** Error values, runs of registrations and example data *)
(* ===================================================================== *)

(** The error of [UnmarshalManifest] when neither the media type nor the
    default key is bound, and the error of a second registration. *)
Definition UnsupportedMediaTypeError (mediaType : string)
  : distribution.error :=
  distribution.fmt_Errorf
    ("unsupported manifest media type and no default available: "
       ++ mediaType).

Definition DuplicateRegistrationError (mediaType : string)
  : distribution.error :=
  distribution.fmt_Errorf
    ("manifest media type registration would overwrite existing: "
       ++ mediaType).

(** A run of registrations, as the [init] functions of the schema packages
    perform them one after the other: the final table and the error of
    each call, in order. *)
Fixpoint registerAll (mappings : gmap string distribution.UnmarshalFunc)
    (calls : list (string * distribution.UnmarshalFunc))
  : gmap string distribution.UnmarshalFunc * list (option distribution.error) :=
  match calls with
  | [] => (mappings, [])
  | (mediaType, u) :: calls' =>
      let '(mappings1, err) :=
        distribution.RegisterManifestSchema mappings mediaType u in
      let '(mappings2, errs) := registerAll mappings1 calls' in
      (mappings2, err :: errs)
  end.

(** The error of [UnmarshalJSON] for a media-type field that is not the
    constant, and the error of [MarshalJSON] without canonical bytes. *)
Definition SchemaMismatchError (actual : string) : distribution.error :=
  distribution.fmt_Errorf
    ("mediaType in manifest should be '" ++ piddle.MediaTypeImageIndex
       ++ "' not '" ++ actual ++ "'").

Definition UninitializedManifestError : distribution.error :=
  distribution.errors_New
    "JSON representation not initialized in DeserializedManifest".

(** Concrete manifests, payloads and tables on which the code is run. *)
Module Examples.

Definition config : distribution.Descriptor :=
  distribution.mkDescriptor piddle.MediaTypeImageConfig 10 "sha256:aaa"
    [] ∅ None.

Definition layer : distribution.Descriptor :=
  distribution.mkDescriptor piddle.MediaTypeLayerGzip 2048 "sha256:bbb"
    ["nbd://store/layer0"] (<["tier" := "base"]> ∅)
    (Some (distribution.mkPlatform "amd64" "linux")).

(** An image index with the expected media type. *)
Definition index : piddle.Manifest :=
  piddle.mkManifest piddle.SchemaVersion config [layer; config].

(** A document with the media-type field [wrong]. *)
Definition wrongIndex : piddle.Manifest :=
  piddle.mkManifest (manifest.mkVersioned 1 "wrong") config [].

Definition indexBytes : bytes :=
  (Reference.json_MarshalIndent index "" "   ").1.

Definition wrongBytes : bytes :=
  (Reference.json_MarshalIndent wrongIndex "" "").1.

(** Bytes that are not a JSON document. *)
Definition brokenBytes : bytes := list_byte_of_string "{ schemaVersion".

Definition schema2Func : distribution.UnmarshalFunc :=
  piddle.schema2Func Reference.json_Unmarshal Reference.checksum_FromBytes.

(** The table after [piddle.init] alone has run. *)
Definition registered : gmap string distribution.UnmarshalFunc :=
  {[ piddle.MediaTypeImageIndex := schema2Func ]}.

(** A table with the piddle function as the default only. *)
Definition defaultOnly : gmap string distribution.UnmarshalFunc :=
  {[ "" := schema2Func ]}.

(** The function of some other schema package, which refuses every
    input. *)
Definition otherFunc : distribution.UnmarshalFunc :=
  λ _, (None, distribution.Descriptor_zero,
        Some (distribution.errors_New "other schema: not supported")).

(** A header with capital letters and a parameter. *)
Definition headerWithCharset : string :=
  "Application/VND.piddle.image.index.v1+JSON; charset=utf-8".

(** What [schema2Func] returns for [indexBytes]. *)
Definition unmarshalled : piddle.DeserializedManifest :=
  piddle.mkDeserializedManifest index indexBytes.

Definition indexDescriptor : distribution.Descriptor :=
  distribution.mkDescriptor piddle.MediaTypeImageIndex
    (Z.of_nat (length indexBytes))
    (Reference.checksum_FromBytes indexBytes) [] ∅ None.

(** A manifest value that never went through [FromStruct] or
    [UnmarshalJSON]. *)
Definition fresh : piddle.DeserializedManifest :=
  piddle.mkDeserializedManifest index [].

End Examples.

(* ===================================================================== *)
(** ** The slice built by [ManifestMediaTypes] *)
(* ===================================================================== *)

(** [ManifestMediaTypes()] as the loop builds its result, for the order
    [keys] in which [range mappings] visits the keys: every key that is
    not the empty string is appended. *)
Definition ManifestMediaTypes_slice (keys : list string) : list string :=
  fold_left
    (λ (mediaTypes : list string) (t : string),
       if decide (t ≠ "") then (mediaTypes ++ [t])%list else mediaTypes)
    keys [].

(** An order in which [range] may visit the table: every key once, in no
    fixed order. *)
Definition rangeOrder (mappings : gmap string distribution.UnmarshalFunc)
    (keys : list string) : Prop :=
  keys ≡ₚ (map_to_list mappings).*1.

(* ===================================================================== *)
(** ** Package [handlers] ([registry/handlers/context.go]) *)
(* ===================================================================== *)
Module handlers.

(** One call of [Errorf] on the logger of the context: the format and
    its arguments, not rendered. *)
Inductive logArg : Type :=
| argString (s : string)
| argError (e : distribution.error).

Record logEntry : Type := Errorf {
  format : string;
  args : list logArg
}.

(** [var errDigestNotAvailable] *)
Definition errDigestNotAvailable : distribution.error :=
  distribution.fmt_Errorf "digest not available in context".

Section Context.

(** [context.Context] and [dcontext.GetStringValue], which reads a string
    out of it (the empty string when there is none). *)
Variable Ctx : Type.
Variable GetStringValue : Ctx → string → string.

(** [digest.Parse]: the digest and the error. *)
Variable digest_Parse : string → string * option distribution.error.

(** [*http.Request] and [basicAuth(r)]: user name, password and whether
    the request carries basic authentication. *)
Variable Request : Type.
Variable basicAuth : Request → string * string * bool.

(** The constant [auth.UserNameKey]. *)
Variable UserNameKey : string.

Definition getName (ctx : Ctx) : string := GetStringValue ctx "vars.name".

Definition getReference (ctx : Ctx) : string :=
  GetStringValue ctx "vars.reference".

Definition getUploadUUID (ctx : Ctx) : string :=
  GetStringValue ctx "vars.uuid".

(** [func getDigest(ctx) (dgst digest.Digest, err error)]: the digest, the
    error and the lines written to the logger. *)
Definition getDigest (ctx : Ctx)
  : string * option distribution.error * list logEntry :=
  let dgstStr := GetStringValue ctx "vars.digest" in
  if decide (dgstStr = "") then
    ("", Some errDigestNotAvailable, [Errorf "digest not available" []])
  else
    let '(d, err) := digest_Parse dgstStr in
    match err with
    | Some err =>
        ("", Some err,
         [Errorf "error parsing digest=%q: %v"
            [argString dgstStr; argError err]])
    | None => (d, None, [])
    end.

(** [func getUserName(ctx, r) string] *)
Definition getUserName (ctx : Ctx) (r : Request) : string :=
  let username := GetStringValue ctx UserNameKey in
  if decide (username = "") then
    let '(uname, _, ok) := basicAuth r in
    if ok then uname else username
  else username.

End Context.

End handlers.

(** Further example data: contexts, requests and a digest check on which
    the handlers are run, more schema functions and tables. *)
Module MoreExamples.

(** A context as a table of strings; a missing key reads as the empty
    string. *)
Definition GetStringValue (ctx : gmap string string) (key : string)
  : string :=
  default "" (ctx !! key).

(** A stand-in for [digest.Parse]: a digest needs a colon. *)
Definition colonParse (s : string) : string * option distribution.error :=
  if Reference.containsChar s ":" then (s, None)
  else (s, Some (distribution.lib_error "digest" "invalid checksum digest format")).

(** A request is its basic-authentication triple. *)
Definition basicAuth (r : string * string * bool) : string * string * bool :=
  r.

Definition UserNameKey : string := "auth.user.name".

Definition withDigest : gmap string string :=
  {[ "vars.digest" := "sha256:aaa" ]}.

Definition withBadDigest : gmap string string :=
  {[ "vars.digest" := "latest" ]}.

Definition withUser : gmap string string :=
  {[ "auth.user.name" := "alice" ]}.

(** A second schema function and a third, to tell bindings apart. *)
Definition thirdFunc : distribution.UnmarshalFunc :=
  λ _, (None, distribution.Descriptor_zero,
        Some (distribution.errors_New "third schema: not supported")).

(** The example document with the wrong media type, laid out as
    [FromStruct] does. *)
Definition wrongBytesIndented : bytes :=
  (Reference.json_MarshalIndent Examples.wrongIndex "" "   ").1.

(** An encoder that fails, as [json.MarshalIndent] does on a value it
    cannot encode: no bytes and an error. *)
Definition failingMarshalIndent (m : piddle.Manifest) (prefix indent : string)
  : bytes * option distribution.error :=
  ([], Some (distribution.lib_error "encoding/json"
               "json: unsupported value")).

(** A table with the piddle function, a function under a key with capital
    letters and a default. *)
Definition mixed : gmap string distribution.UnmarshalFunc :=
  <[ "Application/Json" := thirdFunc ]>
    (<[ "" := Examples.otherFunc ]> Examples.registered).

End MoreExamples.

(* ===================================================================== *)
(** ** Properties of the registry ([manifests.go]) *)
(* ===================================================================== *)

Section RegistryFacts.

Variable ParseMediaType : string → distribution.error + string.

Implicit Types (mappings : gmap string distribution.UnmarshalFunc).
Implicit Types (u : distribution.UnmarshalFunc) (p : bytes).
Implicit Types (ctHeader mediaType : string).

Lemma headerMediaType_empty :
  distribution.headerMediaType ParseMediaType "" = inr "".
Proof. reflexivity. Qed.

Lemma headerMediaType_nonempty ctHeader :
  ctHeader ≠ "" →
  distribution.headerMediaType ParseMediaType ctHeader
  = ParseMediaType ctHeader.
Proof.
  intros Hne. unfold distribution.headerMediaType.
  destruct (decide (ctHeader ≠ "")) as [_ | Hn]; [reflexivity | contradiction].
Qed.

Lemma UnmarshalManifest_parse_error mappings ctHeader p err :
  distribution.headerMediaType ParseMediaType ctHeader = inl err →
  distribution.UnmarshalManifest ParseMediaType mappings ctHeader p
  = (None, distribution.Descriptor_zero, Some err).
Proof. intros H. unfold distribution.UnmarshalManifest. by rewrite H. Qed.

Lemma UnmarshalManifest_hit mappings ctHeader p mediaType u :
  distribution.headerMediaType ParseMediaType ctHeader = inr mediaType →
  mappings !! mediaType = Some u →
  distribution.UnmarshalManifest ParseMediaType mappings ctHeader p = u p.
Proof.
  intros H Hu. unfold distribution.UnmarshalManifest.
  rewrite H; simpl. by rewrite Hu.
Qed.

Lemma UnmarshalManifest_default mappings ctHeader p mediaType u :
  distribution.headerMediaType ParseMediaType ctHeader = inr mediaType →
  mappings !! mediaType = None →
  mappings !! "" = Some u →
  distribution.UnmarshalManifest ParseMediaType mappings ctHeader p = u p.
Proof.
  intros H Hm Hu. unfold distribution.UnmarshalManifest.
  rewrite H; simpl. by rewrite Hm, Hu.
Qed.

Lemma UnmarshalManifest_unsupported mappings ctHeader p mediaType :
  distribution.headerMediaType ParseMediaType ctHeader = inr mediaType →
  mappings !! mediaType = None →
  mappings !! "" = None →
  distribution.UnmarshalManifest ParseMediaType mappings ctHeader p
  = (None, distribution.Descriptor_zero,
     Some (UnsupportedMediaTypeError mediaType)).
Proof.
  intros H Hm Hd. unfold distribution.UnmarshalManifest.
  rewrite H; simpl. by rewrite Hm, Hd.
Qed.

End RegistryFacts.

Lemma RegisterManifestSchema_bound
    (mappings : gmap string distribution.UnmarshalFunc) mediaType first u :
  mappings !! mediaType = Some first →
  distribution.RegisterManifestSchema mappings mediaType u
  = (mappings, Some (DuplicateRegistrationError mediaType)).
Proof.
  intros H. unfold distribution.RegisterManifestSchema. by rewrite H.
Qed.

Lemma RegisterManifestSchema_fresh
    (mappings : gmap string distribution.UnmarshalFunc) mediaType u :
  mappings !! mediaType = None →
  distribution.RegisterManifestSchema mappings mediaType u
  = (<[mediaType := u]> mappings, None).
Proof.
  intros H. unfold distribution.RegisterManifestSchema. by rewrite H.
Qed.

(** Whatever a registration returns, the key is bound afterwards, and a
    binding that was there before is still there. *)
Lemma RegisterManifestSchema_keeps
    (mappings : gmap string distribution.UnmarshalFunc) mediaType u k f :
  mappings !! k = Some f →
  (distribution.RegisterManifestSchema mappings mediaType u).1 !! k = Some f.
Proof.
  intros H. unfold distribution.RegisterManifestSchema.
  destruct (mappings !! mediaType) as [g|] eqn:E; simpl; [done|].
  rewrite lookup_insert_ne; [done|]. intros ->. congruence.
Qed.

Lemma registerAll_keeps (calls : list (string * distribution.UnmarshalFunc)) :
  ∀ (mappings : gmap string distribution.UnmarshalFunc) k f,
    mappings !! k = Some f → (registerAll mappings calls).1 !! k = Some f.
Proof.
  induction calls as [| [mt u] calls IH]; intros mappings k f H; simpl; [done|].
  pose proof (RegisterManifestSchema_keeps mappings mt u k f H) as H1.
  destruct (distribution.RegisterManifestSchema mappings mt u) as [m1 e1].
  specialize (IH m1 k f H1).
  destruct (registerAll m1 calls) as [m2 errs]. exact IH.
Qed.

(** In a run of registrations, once a key is bound every later call for
    that key is refused. *)
Lemma registerAll_refused (calls : list (string * distribution.UnmarshalFunc)) :
  ∀ (mappings : gmap string distribution.UnmarshalFunc) i mediaType u f,
    mappings !! mediaType = Some f →
    calls !! i = Some (mediaType, u) →
    (registerAll mappings calls).2 !! i
    = Some (Some (DuplicateRegistrationError mediaType)).
Proof.
  induction calls as [| [mt u'] calls IH]; intros mappings i mediaType u f Hb Hi.
  - by destruct i.
  - simpl.
    pose proof (RegisterManifestSchema_keeps mappings mt u' mediaType f Hb) as H1.
    destruct i as [| i]; simpl in Hi.
    + injection Hi as -> ->.
      rewrite (RegisterManifestSchema_bound _ _ f) by done.
      by destruct (registerAll mappings calls).
    + destruct (distribution.RegisterManifestSchema mappings mt u') as [m1 e1].
      specialize (IH m1 i mediaType u f H1 Hi).
      by destruct (registerAll m1 calls).
Qed.

Lemma RegisterManifestSchema_binds
    (mappings : gmap string distribution.UnmarshalFunc) mediaType u :
  ∃ f, (distribution.RegisterManifestSchema mappings mediaType u).1
         !! mediaType = Some f
       ∧ ((distribution.RegisterManifestSchema mappings mediaType u).2 = None
          → f = u).
Proof.
  unfold distribution.RegisterManifestSchema.
  destruct (mappings !! mediaType) as [g|] eqn:E; simpl.
  - exists g. split; [done | discriminate].
  - exists u. split; [apply lookup_insert_eq | done].
Qed.

(** Two calls of a run for the same key: the later one is refused, and
    when the earlier one went through its function is the one bound at the
    end of the run. *)
Lemma registerAll_at_most_once
    (calls : list (string * distribution.UnmarshalFunc)) :
  ∀ (mappings : gmap string distribution.UnmarshalFunc) i j mediaType u1 u2,
    i < j →
    calls !! i = Some (mediaType, u1) →
    calls !! j = Some (mediaType, u2) →
    (registerAll mappings calls).2 !! j
    = Some (Some (DuplicateRegistrationError mediaType))
    ∧ ((registerAll mappings calls).2 !! i = Some None →
       (registerAll mappings calls).1 !! mediaType = Some u1).
Proof.
  induction calls as [| [mt u'] calls IH];
    intros mappings i j mediaType u1 u2 Hij Hi Hj.
  - by destruct i.
  - destruct j as [| j]; [lia|]. simpl in Hj. simpl.
    destruct i as [| i]; simpl in Hi.
    + injection Hi as -> ->.
      destruct (RegisterManifestSchema_binds mappings mediaType u1)
        as (f & Hf & Hfu).
      destruct (distribution.RegisterManifestSchema mappings mediaType u1)
        as [m1 e1]; simpl in Hf, Hfu.
      pose proof (registerAll_refused calls m1 j mediaType u2 f Hf Hj) as Hr.
      pose proof (registerAll_keeps calls m1 mediaType f Hf) as Hk.
      destruct (registerAll m1 calls) as [m2 errs]; simpl in *.
      split; [exact Hr|]. intros [= ->]. by rewrite <- Hfu.
    + destruct (distribution.RegisterManifestSchema mappings mt u')
        as [m1 e1].
      destruct (IH m1 i j mediaType u1 u2 ltac:(lia) Hi Hj) as [H1 H2].
      destruct (registerAll m1 calls) as [m2 errs]; simpl in *.
      split; assumption.
Qed.

(** C7.  A registration under a key that is already bound is refused with
    the duplicate-registration error and returns the table it was given:
    the function registered first is still bound to the key and no other
    key has changed.  In a run of registrations at most one call per key
    goes through: of two calls for one key the later is refused, and the
    function of an earlier call that went through is still bound when the
    run ends. *)
Theorem RegisterManifestSchema_once
    (mappings : gmap string distribution.UnmarshalFunc)
    (mediaType : string) (first second : distribution.UnmarshalFunc) :
  mappings !! mediaType = Some first →
  distribution.RegisterManifestSchema mappings mediaType second
  = (mappings, Some (DuplicateRegistrationError mediaType))
  ∧ (distribution.RegisterManifestSchema mappings mediaType second).1
      !! mediaType = Some first
  ∧ (∀ k, (distribution.RegisterManifestSchema mappings mediaType second).1
            !! k = mappings !! k)
  ∧ (∀ start calls i j u1 u2,
       i < j →
       calls !! i = Some (mediaType, u1) →
       calls !! j = Some (mediaType, u2) →
       (registerAll start calls).2 !! j
       = Some (Some (DuplicateRegistrationError mediaType))
       ∧ ((registerAll start calls).2 !! i = Some None →
          (registerAll start calls).1 !! mediaType = Some u1)).
Proof.
  intros Hb.
  rewrite (RegisterManifestSchema_bound mappings mediaType first second Hb).
  simpl. repeat split; try done.
  - eapply registerAll_at_most_once; eauto.
  - eapply registerAll_at_most_once; eauto.
Qed.

(** C10.  With an empty header the parser is not called: the outcome is
    the same for every parser, it is the result of the function bound to
    the empty key when there is one, and the unsupported-media-type error
    (for the empty media type) when there is none.  So the only failures
    are a missing default registration and a failure of the default
    function itself. *)
Theorem UnmarshalManifest_empty_header
    (ParseMediaType ParseMediaType' : string → distribution.error + string)
    (mappings : gmap string distribution.UnmarshalFunc) (p : bytes) :
  distribution.headerMediaType ParseMediaType "" = inr ""
  ∧ distribution.UnmarshalManifest ParseMediaType mappings "" p
    = distribution.UnmarshalManifest ParseMediaType' mappings "" p
  ∧ distribution.UnmarshalManifest ParseMediaType mappings "" p
    = match mappings !! "" with
      | Some unmarshalFunc => unmarshalFunc p
      | None =>
          (None, distribution.Descriptor_zero,
           Some (UnsupportedMediaTypeError ""))
      end.
Proof.
  split; [reflexivity|]. split; [reflexivity|].
  unfold distribution.UnmarshalManifest. simpl.
  destruct (mappings !! "") as [u|]; reflexivity.
Qed.


(* ===================================================================== *)
(** ** Properties of the piddle manifest ([manifest/piddle/manifest.go]) *)
(* ===================================================================== *)

Lemma copy_make_bytes (b : bytes) :
  piddle.copy (piddle.make_bytes (length b)) b = b.
Proof.
  unfold piddle.copy, piddle.make_bytes.
  rewrite repeat_length, Nat.min_id.
  rewrite take_ge by lia. rewrite drop_ge by (rewrite repeat_length; lia).
  apply app_nil_r.
Qed.

Lemma References_cons (m : piddle.Manifest) :
  piddle.References m = piddle.Config m :: piddle.Layers m.
Proof. reflexivity. Qed.

Section PiddleFacts.

Variable json_MarshalIndent
  : piddle.Manifest → string → string → bytes * option distribution.error.
Variable json_Unmarshal : bytes → distribution.error + piddle.Manifest.
Variable digest_FromBytes : bytes → string.

Abbreviation UnmarshalJSON := (piddle.UnmarshalJSON json_Unmarshal).
Abbreviation schema2Func :=
  (piddle.schema2Func json_Unmarshal digest_FromBytes).
Abbreviation FromStruct := (piddle.FromStruct json_MarshalIndent).

Implicit Types (m : piddle.DeserializedManifest) (b : bytes).

Lemma UnmarshalJSON_decode_error m b err :
  json_Unmarshal b = inl err →
  UnmarshalJSON m b
  = (piddle.mkDeserializedManifest (piddle.dm_Manifest m) b, Some err).
Proof.
  intros H. unfold piddle.UnmarshalJSON. simpl.
  rewrite copy_make_bytes, H. reflexivity.
Qed.

Lemma UnmarshalJSON_mismatch m b decoded :
  json_Unmarshal b = inr decoded →
  piddle.MediaType decoded ≠ piddle.MediaTypeImageIndex →
  UnmarshalJSON m b
  = (piddle.mkDeserializedManifest (piddle.dm_Manifest m) b,
     Some (SchemaMismatchError (piddle.MediaType decoded))).
Proof.
  intros H Hne. unfold piddle.UnmarshalJSON. simpl.
  rewrite copy_make_bytes, H.
  destruct (decide _) as [_ | Hn]; [reflexivity | contradiction].
Qed.

Lemma UnmarshalJSON_ok m b decoded :
  json_Unmarshal b = inr decoded →
  piddle.MediaType decoded = piddle.MediaTypeImageIndex →
  UnmarshalJSON m b = (piddle.mkDeserializedManifest decoded b, None).
Proof.
  intros H He. unfold piddle.UnmarshalJSON. simpl.
  rewrite copy_make_bytes, H.
  destruct (decide _) as [Hn | _]; [contradiction | reflexivity].
Qed.

(** The receiver holds the input as its canonical bytes after every call. *)
Lemma UnmarshalJSON_canonical m b :
  piddle.canonical (UnmarshalJSON m b).1 = b.
Proof.
  unfold piddle.UnmarshalJSON. simpl. rewrite copy_make_bytes.
  destruct (json_Unmarshal b) as [err | decoded]; [reflexivity|].
  destruct (decide _); reflexivity.
Qed.

Lemma schema2Func_error b err :
  (UnmarshalJSON piddle.DeserializedManifest_zero b).2 = Some err →
  schema2Func b = (None, distribution.Descriptor_zero, Some err).
Proof.
  intros H. unfold piddle.schema2Func.
  destruct (UnmarshalJSON _ b) as [m' e]. simpl in H. by subst e.
Qed.

Lemma schema2Func_ok b decoded :
  json_Unmarshal b = inr decoded →
  piddle.MediaType decoded = piddle.MediaTypeImageIndex →
  schema2Func b
  = (Some (distribution.mkManifestValue
             (piddle.mkDeserializedManifest decoded b)),
     distribution.mkDescriptor piddle.MediaTypeImageIndex
       (Z.of_nat (length b)) (digest_FromBytes b) [] ∅ None,
     None).
Proof.
  intros H He. unfold piddle.schema2Func.
  by rewrite (UnmarshalJSON_ok _ b decoded H He).
Qed.

(** An accepted input is one that decodes to a manifest with the expected
    media-type field. *)
Lemma schema2Func_accepts b v d :
  schema2Func b = (v, d, None) →
  ∃ decoded,
    json_Unmarshal b = inr decoded
    ∧ piddle.MediaType decoded = piddle.MediaTypeImageIndex.
Proof.
  intros H.
  destruct (json_Unmarshal b) as [err | decoded] eqn:E.
  - rewrite (schema2Func_error b err) in H; [discriminate|].
    by rewrite (UnmarshalJSON_decode_error _ b err E).
  - destruct (decide (piddle.MediaType decoded = piddle.MediaTypeImageIndex))
      as [He | Hne]; [by exists decoded|].
    rewrite (schema2Func_error b
               (SchemaMismatchError (piddle.MediaType decoded))) in H;
      [discriminate|].
    by rewrite (UnmarshalJSON_mismatch _ b decoded E Hne).
Qed.

End PiddleFacts.

(** C8.  [References()] of a piddle manifest is the config descriptor
    followed by the layers in their stored order: its length is one more
    than the number of layers, its first element is the config and its
    element [i+1] is layer [i].  The method of the interface on a
    [DeserializedManifest] returns the same list. *)
Theorem References_config_then_layers (m : piddle.Manifest) (c : bytes) :
  piddle.References m = piddle.Config m :: piddle.Layers m
  ∧ length (piddle.References m) = 1 + length (piddle.Layers m)
  ∧ piddle.References m !! 0 = Some (piddle.Config m)
  ∧ (∀ i, piddle.References m !! S i = piddle.Layers m !! i)
  ∧ distribution.References (piddle.mkDeserializedManifest m c)
    = piddle.Config m :: piddle.Layers m.
Proof.
  rewrite References_cons. repeat split.
Qed.

(** C5.  When the input decodes to a manifest whose media-type field is
    not [MediaTypeImageIndex], [UnmarshalJSON] returns the schema-mismatch
    error, whose message holds the expected constant and the decoded
    value; [schema2Func] returns that error with no manifest, and so does
    [UnmarshalManifest] whenever the header leads to [schema2Func]. *)
Theorem UnmarshalJSON_schema_mismatch
    (json_Unmarshal : bytes → distribution.error + piddle.Manifest)
    (digest_FromBytes : bytes → string)
    (m : piddle.DeserializedManifest) (b : bytes)
    (decoded : piddle.Manifest) :
  json_Unmarshal b = inr decoded →
  piddle.MediaType decoded ≠ piddle.MediaTypeImageIndex →
  (piddle.UnmarshalJSON json_Unmarshal m b).2
  = Some (SchemaMismatchError (piddle.MediaType decoded))
  ∧ distribution.Error (SchemaMismatchError (piddle.MediaType decoded))
    = "mediaType in manifest should be '" ++ piddle.MediaTypeImageIndex
        ++ "' not '" ++ piddle.MediaType decoded ++ "'"
  ∧ piddle.schema2Func json_Unmarshal digest_FromBytes b
    = (None, distribution.Descriptor_zero,
       Some (SchemaMismatchError (piddle.MediaType decoded)))
  ∧ (∀ ParseMediaType (mappings : gmap string distribution.UnmarshalFunc)
       ctHeader mediaType,
       distribution.headerMediaType ParseMediaType ctHeader = inr mediaType →
       mappings !! mediaType
       = Some (piddle.schema2Func json_Unmarshal digest_FromBytes) →
       distribution.UnmarshalManifest ParseMediaType mappings ctHeader b
       = (None, distribution.Descriptor_zero,
          Some (SchemaMismatchError (piddle.MediaType decoded)))).
Proof.
  intros H Hne.
  assert (Hs : piddle.schema2Func json_Unmarshal digest_FromBytes b
               = (None, distribution.Descriptor_zero,
                  Some (SchemaMismatchError (piddle.MediaType decoded)))).
  { apply schema2Func_error.
    by rewrite (UnmarshalJSON_mismatch _ _ b decoded H Hne). }
  split; [by rewrite (UnmarshalJSON_mismatch _ _ b decoded H Hne)|].
  split; [reflexivity|]. split; [exact Hs|].
  intros P mappings ctHeader mediaType Hh Hm.
  by rewrite (UnmarshalManifest_hit P mappings ctHeader b mediaType _ Hh Hm).
Qed.

(** C9.  A call of [UnmarshalJSON] that fails, because the input does not
    decode or because the decoded media-type field is not the constant,
    returns an error and leaves the receiver with the input as its
    canonical bytes and with its structured fields as they were. *)
Theorem UnmarshalJSON_failure_keeps_copy
    (json_Unmarshal : bytes → distribution.error + piddle.Manifest)
    (m : piddle.DeserializedManifest) (b : bytes) :
  (∃ err, json_Unmarshal b = inl err)
  ∨ (∃ decoded, json_Unmarshal b = inr decoded
                ∧ piddle.MediaType decoded ≠ piddle.MediaTypeImageIndex) →
  (piddle.UnmarshalJSON json_Unmarshal m b).2 ≠ None
  ∧ piddle.canonical (piddle.UnmarshalJSON json_Unmarshal m b).1 = b
  ∧ piddle.dm_Manifest (piddle.UnmarshalJSON json_Unmarshal m b).1
    = piddle.dm_Manifest m.
Proof.
  intros [[err H] | (decoded & H & Hne)].
  - by rewrite (UnmarshalJSON_decode_error _ m b err H).
  - by rewrite (UnmarshalJSON_mismatch _ m b decoded H Hne).
Qed.

(** C6, as the code has it.  [MarshalJSON] returns the canonical bytes
    when there are some and fails with the not-initialized error when
    there are none.  [Payload] returns the canonical bytes and no error in
    both cases: without canonical bytes it returns an empty payload. *)
Theorem serialization_returns_canonical (m : piddle.DeserializedManifest) :
  (piddle.canonical m ≠ [] →
   piddle.MarshalJSON m = (piddle.canonical m, None)
   ∧ piddle.Payload m
     = (piddle.MediaType (piddle.dm_Manifest m), piddle.canonical m, None))
  ∧ (piddle.canonical m = [] →
     piddle.MarshalJSON m = ([], Some UninitializedManifestError)
     ∧ piddle.Payload m
       = (piddle.MediaType (piddle.dm_Manifest m), [], None)).
Proof.
  unfold piddle.MarshalJSON, piddle.Payload.
  destruct (piddle.canonical m) as [| x c]; simpl; split; intros H; done.
Qed.

(** C2.  When [UnmarshalManifest] hands the input [p] to [schema2Func]
    (bound to the media type of the header, or to the empty key when the
    media type is not bound) and no error comes back, the descriptor holds
    the digest of [p], the length of [p] and the constant media type, and
    the manifest returned has [p] as its payload bytes; the digest of its
    payload is the digest in the descriptor. *)
Theorem UnmarshalManifest_descriptor_of_input
    (ParseMediaType : string → distribution.error + string)
    (json_Unmarshal : bytes → distribution.error + piddle.Manifest)
    (digest_FromBytes : bytes → string)
    (mappings : gmap string distribution.UnmarshalFunc)
    (ctHeader mediaType : string) (p : bytes)
    (v : option distribution.ManifestValue) (d : distribution.Descriptor) :
  distribution.headerMediaType ParseMediaType ctHeader = inr mediaType →
  mappings !! mediaType
  = Some (piddle.schema2Func json_Unmarshal digest_FromBytes)
  ∨ (mappings !! mediaType = None
     ∧ mappings !! ""
       = Some (piddle.schema2Func json_Unmarshal digest_FromBytes)) →
  distribution.UnmarshalManifest ParseMediaType mappings ctHeader p
  = (v, d, None) →
  distribution.Digest d = digest_FromBytes p
  ∧ distribution.Size d = Z.of_nat (length p)
  ∧ distribution.MediaType d = piddle.MediaTypeImageIndex
  ∧ ∃ mv, v = Some mv
          ∧ (distribution.ManifestValue_Payload mv).1.2 = p
          ∧ (distribution.ManifestValue_Payload mv).2 = None
          ∧ digest_FromBytes (distribution.ManifestValue_Payload mv).1.2
            = distribution.Digest d.
Proof.
  intros Hh Hm Hr.
  assert (Hs : piddle.schema2Func json_Unmarshal digest_FromBytes p
               = (v, d, None)).
  { rewrite <- Hr. symmetry. destruct Hm as [Hm | [Hm Hd]].
    - by eapply UnmarshalManifest_hit.
    - by eapply UnmarshalManifest_default. }
  destruct (schema2Func_accepts _ _ p v d Hs) as (decoded & Hd & He).
  rewrite (schema2Func_ok _ digest_FromBytes p decoded Hd He) in Hs.
  injection Hs as <- <-. simpl. repeat split. eexists. repeat split.
Qed.


(** C4, as the code has it.  With the default function [u] as the only
    registration, a header that is empty or that the MIME parser accepts
    leads to [u]; with no registration at all such a header gives the
    unsupported-media-type error.  A header the parser refuses gives the
    error of the parser with either table, and no function is called.  So
    with an empty table every call fails. *)
Theorem UnmarshalManifest_default_only
    (ParseMediaType : string → distribution.error + string)
    (u : distribution.UnmarshalFunc) (ctHeader : string) (p : bytes) :
  (∀ mediaType,
     distribution.headerMediaType ParseMediaType ctHeader = inr mediaType →
     distribution.UnmarshalManifest ParseMediaType {[ "" := u ]} ctHeader p
     = u p
     ∧ distribution.UnmarshalManifest ParseMediaType ∅ ctHeader p
       = (None, distribution.Descriptor_zero,
          Some (UnsupportedMediaTypeError mediaType)))
  ∧ (∀ err,
       distribution.headerMediaType ParseMediaType ctHeader = inl err →
       distribution.UnmarshalManifest ParseMediaType {[ "" := u ]} ctHeader p
       = (None, distribution.Descriptor_zero, Some err)
       ∧ distribution.UnmarshalManifest ParseMediaType ∅ ctHeader p
         = (None, distribution.Descriptor_zero, Some err))
  ∧ distribution.UnmarshalManifest ParseMediaType {[ "" := u ]} "" p = u p
  ∧ (distribution.UnmarshalManifest ParseMediaType ∅ ctHeader p).2 ≠ None.
Proof.
  split; [| split; [| split]].
  - intros mediaType H. split.
    + destruct (decide (mediaType = "")) as [-> | Hne].
      * eapply UnmarshalManifest_hit; [done | apply lookup_singleton_eq].
      * eapply UnmarshalManifest_default;
          [done | by apply lookup_singleton_ne | apply lookup_singleton_eq].
    + by eapply UnmarshalManifest_unsupported.
  - intros err H. split; by apply UnmarshalManifest_parse_error.
  - eapply UnmarshalManifest_hit; [done | apply lookup_singleton_eq].
  - unfold distribution.UnmarshalManifest.
    destruct (distribution.headerMediaType ParseMediaType ctHeader);
      simpl; [done|].
    rewrite !lookup_empty. done.
Qed.

(* ===================================================================== *)
(** ** Start-up registration and the reference MIME parser *)
(* ===================================================================== *)

(** [piddle.init] on an empty table binds the constant to [schema2Func];
    on a table that already binds the constant it panics. *)
Lemma init_empty
    (json_Unmarshal : bytes → distribution.error + piddle.Manifest)
    (digest_FromBytes : bytes → string) :
  piddle.init json_Unmarshal digest_FromBytes ∅
  = inr {[ piddle.MediaTypeImageIndex
           := piddle.schema2Func json_Unmarshal digest_FromBytes ]}.
Proof. reflexivity. Qed.

Lemma init_bound
    (json_Unmarshal : bytes → distribution.error + piddle.Manifest)
    (digest_FromBytes : bytes → string)
    (mappings : gmap string distribution.UnmarshalFunc) u :
  mappings !! piddle.MediaTypeImageIndex = Some u →
  piddle.init json_Unmarshal digest_FromBytes mappings
  = inl ("Unable to register manifest: "
           ++ distribution.Error
                (DuplicateRegistrationError piddle.MediaTypeImageIndex)).
Proof.
  intros H. unfold piddle.init.
  by rewrite (RegisterManifestSchema_bound _ _ u).
Qed.

Lemma cutSemicolon_app (t rest : string) :
  Reference.containsChar t ";" = false →
  Reference.cutSemicolon (t ++ String ";" rest) = (t, String ";" rest).
Proof.
  induction t as [| c t IH]; intros H; [reflexivity|].
  cbn [Reference.containsChar] in H. apply orb_false_iff in H as [Hc Ht].
  change (String c t +:+ String ";" rest)
    with (String c (t +:+ String ";" rest)).
  cbn [Reference.cutSemicolon].
  rewrite Ascii.eqb_sym, Hc, (IH Ht). reflexivity.
Qed.

Lemma cutSemicolon_none (t : string) :
  Reference.containsChar t ";" = false →
  Reference.cutSemicolon t = (t, EmptyString).
Proof.
  induction t as [| c t IH]; intros H; [reflexivity|].
  cbn [Reference.containsChar] in H. apply orb_false_iff in H as [Hc Ht].
  cbn [Reference.cutSemicolon].
  rewrite Ascii.eqb_sym, Hc, (IH Ht). reflexivity.
Qed.

(** The reference parser gives the same answer for a media type without
    semicolon and for that media type followed by a [charset]
    parameter. *)
Lemma ParseMediaType_charset (t : string) :
  Reference.containsChar t ";" = false →
  Reference.ParseMediaType (t ++ "; charset=utf-8")
  = Reference.ParseMediaType t.
Proof.
  intros H. unfold Reference.ParseMediaType.
  rewrite (cutSemicolon_app t " charset=utf-8" H), (cutSemicolon_none t H).
  destruct (Reference.checkMediaTypeDisposition _); reflexivity.
Qed.

(** Header normalization: a non-empty media type without semicolon and
    the same media type with a [charset] parameter are dispatched alike,
    whatever the table. *)
Lemma UnmarshalManifest_charset
    (mappings : gmap string distribution.UnmarshalFunc)
    (t : string) (p : bytes) :
  t ≠ "" →
  Reference.containsChar t ";" = false →
  distribution.UnmarshalManifest Reference.ParseMediaType mappings
    (t ++ "; charset=utf-8") p
  = distribution.UnmarshalManifest Reference.ParseMediaType mappings t p.
Proof.
  intros Hne H. unfold distribution.UnmarshalManifest.
  rewrite !headerMediaType_nonempty; [| done | by destruct t].
  by rewrite ParseMediaType_charset.
Qed.

(* ===================================================================== *)
(** ** The code run on concrete inputs *)
(* ===================================================================== *)

(** The reference codec reads back the example index from its own
    encoding, and refuses the broken bytes. *)
Lemma json_Unmarshal_indexBytes :
  Reference.json_Unmarshal Examples.indexBytes = inr Examples.index.
Proof. vm_compute. reflexivity. Qed.

Lemma json_Unmarshal_wrongBytes :
  Reference.json_Unmarshal Examples.wrongBytes = inr Examples.wrongIndex.
Proof. vm_compute. reflexivity. Qed.

(** Scenario A: the header with capital letters and a parameter reaches
    the piddle function, which accepts the bytes. *)
Example UnmarshalManifest_headerWithCharset :
  distribution.UnmarshalManifest Reference.ParseMediaType Examples.registered
    Examples.headerWithCharset Examples.indexBytes
  = (Some (distribution.mkManifestValue Examples.unmarshalled),
     Examples.indexDescriptor, None).
Proof. vm_compute. reflexivity. Qed.

(** Witness of C7: the table after [piddle.init], and a second
    registration under the piddle media type; a run of two registrations
    under that media type from the empty table. *)
Lemma RegisterManifestSchema_once_witness :
  Examples.registered !! piddle.MediaTypeImageIndex
  = Some Examples.schema2Func
  ∧ distribution.RegisterManifestSchema Examples.registered
      piddle.MediaTypeImageIndex Examples.otherFunc
    = (Examples.registered,
       Some (DuplicateRegistrationError piddle.MediaTypeImageIndex))
  ∧ (registerAll ∅
       [(piddle.MediaTypeImageIndex, Examples.schema2Func);
        (piddle.MediaTypeImageIndex, Examples.otherFunc)]).2 !! 1
    = Some (Some (DuplicateRegistrationError piddle.MediaTypeImageIndex))
  ∧ (registerAll ∅
       [(piddle.MediaTypeImageIndex, Examples.schema2Func);
        (piddle.MediaTypeImageIndex, Examples.otherFunc)]).1
      !! piddle.MediaTypeImageIndex
    = Some Examples.schema2Func.
Proof.
  destruct (RegisterManifestSchema_once Examples.registered
              piddle.MediaTypeImageIndex Examples.schema2Func
              Examples.otherFunc ltac:(reflexivity))
    as (H1 & _ & _ & H4).
  destruct (H4 ∅
              [(piddle.MediaTypeImageIndex, Examples.schema2Func);
               (piddle.MediaTypeImageIndex, Examples.otherFunc)]
              0 1 Examples.schema2Func Examples.otherFunc
              ltac:(lia) ltac:(reflexivity) ltac:(reflexivity))
    as (H5 & H6).
  split; [reflexivity|]. split; [exact H1|]. split; [exact H5|].
  apply H6. reflexivity.
Defined.


(** Witness of C5: the document with the media-type field [wrong], handed
    to [UnmarshalJSON] and sent under the piddle media type. *)
Lemma UnmarshalJSON_schema_mismatch_witness :
  Reference.json_Unmarshal Examples.wrongBytes = inr Examples.wrongIndex
  ∧ (piddle.UnmarshalJSON Reference.json_Unmarshal
       piddle.DeserializedManifest_zero Examples.wrongBytes).2
    = Some (SchemaMismatchError "wrong")
  ∧ distribution.UnmarshalManifest Reference.ParseMediaType
      Examples.registered piddle.MediaTypeImageIndex Examples.wrongBytes
    = (None, distribution.Descriptor_zero,
       Some (SchemaMismatchError "wrong")).
Proof.
  assert (H : Reference.json_Unmarshal Examples.wrongBytes
              = inr Examples.wrongIndex) by (vm_compute; reflexivity).
  assert (Hne : piddle.MediaType Examples.wrongIndex
                ≠ piddle.MediaTypeImageIndex) by (vm_compute; discriminate).
  destruct (UnmarshalJSON_schema_mismatch Reference.json_Unmarshal
              Reference.checksum_FromBytes piddle.DeserializedManifest_zero
              Examples.wrongBytes Examples.wrongIndex H Hne)
    as (H1 & _ & _ & H4).
  split; [exact H|]. split; [exact H1|].
  apply (H4 Reference.ParseMediaType Examples.registered
            piddle.MediaTypeImageIndex piddle.MediaTypeImageIndex).
  - vm_compute; reflexivity.
  - reflexivity.
Defined.

(** Witness of C9: a receiver that holds the example index is handed the
    document with the wrong media type, and then bytes that are not
    JSON. *)
Lemma UnmarshalJSON_failure_keeps_copy_witness :
  ((piddle.UnmarshalJSON Reference.json_Unmarshal Examples.unmarshalled
      Examples.wrongBytes).2 ≠ None
   ∧ piddle.canonical
       (piddle.UnmarshalJSON Reference.json_Unmarshal Examples.unmarshalled
          Examples.wrongBytes).1 = Examples.wrongBytes
   ∧ piddle.dm_Manifest
       (piddle.UnmarshalJSON Reference.json_Unmarshal Examples.unmarshalled
          Examples.wrongBytes).1 = Examples.index)
  ∧ ((piddle.UnmarshalJSON Reference.json_Unmarshal Examples.unmarshalled
        Examples.brokenBytes).2 ≠ None
     ∧ piddle.canonical
         (piddle.UnmarshalJSON Reference.json_Unmarshal Examples.unmarshalled
            Examples.brokenBytes).1 = Examples.brokenBytes
     ∧ piddle.dm_Manifest
         (piddle.UnmarshalJSON Reference.json_Unmarshal Examples.unmarshalled
            Examples.brokenBytes).1 = Examples.index).
Proof.
  split.
  - apply (UnmarshalJSON_failure_keeps_copy Reference.json_Unmarshal
             Examples.unmarshalled Examples.wrongBytes).
    right. exists Examples.wrongIndex. split.
    + vm_compute; reflexivity.
    + vm_compute. discriminate.
  - apply (UnmarshalJSON_failure_keeps_copy Reference.json_Unmarshal
             Examples.unmarshalled Examples.brokenBytes).
    left. eexists. vm_compute; reflexivity.
Defined.

(** Witness of C6: a value without canonical bytes, and the value
    [schema2Func] builds from the example bytes. *)
Lemma serialization_returns_canonical_witness :
  (piddle.MarshalJSON Examples.fresh = ([], Some UninitializedManifestError)
   ∧ piddle.Payload Examples.fresh = (piddle.MediaTypeImageIndex, [], None))
  ∧ (piddle.MarshalJSON Examples.unmarshalled = (Examples.indexBytes, None)
     ∧ piddle.Payload Examples.unmarshalled
       = (piddle.MediaTypeImageIndex, Examples.indexBytes, None)).
Proof.
  split.
  - apply (serialization_returns_canonical Examples.fresh). reflexivity.
  - apply (serialization_returns_canonical Examples.unmarshalled).
    vm_compute. discriminate.
Defined.

(** Witness of C2: the example index sent under its media type. *)
Lemma UnmarshalManifest_descriptor_of_input_witness :
  distribution.UnmarshalManifest Reference.ParseMediaType Examples.registered
    piddle.MediaTypeImageIndex Examples.indexBytes
  = (Some (distribution.mkManifestValue Examples.unmarshalled),
     Examples.indexDescriptor, None)
  ∧ distribution.Digest Examples.indexDescriptor
    = Reference.checksum_FromBytes Examples.indexBytes
  ∧ distribution.Size Examples.indexDescriptor
    = Z.of_nat (length Examples.indexBytes).
Proof.
  assert (H : distribution.UnmarshalManifest Reference.ParseMediaType
                Examples.registered piddle.MediaTypeImageIndex
                Examples.indexBytes
              = (Some (distribution.mkManifestValue Examples.unmarshalled),
                 Examples.indexDescriptor, None))
    by (vm_compute; reflexivity).
  split; [exact H|].
  destruct (UnmarshalManifest_descriptor_of_input Reference.ParseMediaType
              Reference.json_Unmarshal Reference.checksum_FromBytes
              Examples.registered piddle.MediaTypeImageIndex
              piddle.MediaTypeImageIndex Examples.indexBytes _ _
              ltac:(vm_compute; reflexivity)
              ltac:(left; reflexivity) H) as (Hd & Hs & _).
  split; assumption.
Defined.


(** Witness of C4: the piddle function as the only, default registration;
    a header with a parameter, and a header the parser refuses. *)
Lemma UnmarshalManifest_default_only_witness :
  (distribution.UnmarshalManifest Reference.ParseMediaType
     Examples.defaultOnly "text/plain; q=1" Examples.indexBytes
   = Examples.schema2Func Examples.indexBytes
   ∧ distribution.UnmarshalManifest Reference.ParseMediaType ∅
       "text/plain; q=1" Examples.indexBytes
     = (None, distribution.Descriptor_zero,
        Some (UnsupportedMediaTypeError "text/plain")))
  ∧ (distribution.UnmarshalManifest Reference.ParseMediaType
       Examples.defaultOnly "text/plain; q" Examples.indexBytes
     = (None, distribution.Descriptor_zero,
        Some (distribution.lib_error "mime" "mime: invalid media parameter"))
     ∧ distribution.UnmarshalManifest Reference.ParseMediaType ∅
         "text/plain; q" Examples.indexBytes
       = (None, distribution.Descriptor_zero,
          Some (distribution.lib_error "mime"
                  "mime: invalid media parameter"))).
Proof.
  split.
  - apply (UnmarshalManifest_default_only Reference.ParseMediaType
             Examples.schema2Func "text/plain; q=1" Examples.indexBytes).
    vm_compute; reflexivity.
  - apply (UnmarshalManifest_default_only Reference.ParseMediaType
             Examples.schema2Func "text/plain; q" Examples.indexBytes).
    vm_compute; reflexivity.
Defined.

(** Counterexample to C4 as stated: with the piddle function as the only,
    default registration, the header [/] is refused by the MIME parser;
    the default function, which accepts these bytes, is not called, and
    with an empty table the error is the one of the parser, not the
    unsupported-media-type error. *)
Lemma UnmarshalManifest_default_only_malformed_header :
  distribution.UnmarshalManifest Reference.ParseMediaType
    Examples.defaultOnly "/" Examples.indexBytes
  = (None, distribution.Descriptor_zero,
     Some (distribution.lib_error "mime" "mime: no media type"))
  ∧ distribution.UnmarshalManifest Reference.ParseMediaType
      Examples.defaultOnly "/" Examples.indexBytes
    ≠ Examples.schema2Func Examples.indexBytes
  ∧ distribution.UnmarshalManifest Reference.ParseMediaType ∅ "/"
      Examples.indexBytes
    = (None, distribution.Descriptor_zero,
       Some (distribution.lib_error "mime" "mime: no media type"))
  ∧ (∀ mediaType,
       distribution.lib_error "mime" "mime: no media type"
       ≠ UnsupportedMediaTypeError mediaType).
Proof.
  split; [vm_compute; reflexivity|].
  split; [intros H; vm_compute in H; discriminate H|].
  split; [vm_compute; reflexivity|].
  intros mediaType H. discriminate H.
Qed.

(** Counterexample to C6 as stated: [Payload] of a value without
    canonical bytes returns an empty payload and no error. *)
Lemma Payload_without_canonical_bytes :
  piddle.canonical Examples.fresh = []
  ∧ piddle.Payload Examples.fresh = (piddle.MediaTypeImageIndex, [], None)
  ∧ (piddle.Payload Examples.fresh).2 ≠ Some UninitializedManifestError
  ∧ piddle.Payload piddle.DeserializedManifest_zero = ("", [], None).
Proof.
  split; [reflexivity|]. split; [reflexivity|].
  split; [discriminate | reflexivity].
Qed.

(* ===================================================================== *)
(** ** Further properties of the registry *)
(* ===================================================================== *)

Lemma ManifestMediaTypes_slice_from (keys acc : list string) :
  fold_left
    (λ (mediaTypes : list string) (t : string),
       if decide (t ≠ "") then (mediaTypes ++ [t])%list else mediaTypes)
    keys acc
  = (acc ++ filter (λ t, t ≠ "") keys)%list.
Proof.
  revert acc. induction keys as [| t keys IH]; intros acc; simpl.
  - by rewrite app_nil_r.
  - rewrite IH, filter_cons. destruct (decide (t ≠ "")); [|done].
    by rewrite <- app_assoc.
Qed.

Lemma ManifestMediaTypes_slice_filter (keys : list string) :
  ManifestMediaTypes_slice keys = filter (λ t, t ≠ "") keys.
Proof. apply (ManifestMediaTypes_slice_from keys []). Qed.

Lemma rangeOrder_elem
    (mappings : gmap string distribution.UnmarshalFunc) keys t :
  rangeOrder mappings keys → t ∈ keys ↔ is_Some (mappings !! t).
Proof.
  intros H. unfold rangeOrder in H. rewrite H, list_elem_of_fmap. split.
  - intros ([k u] & -> & Hin). apply elem_of_map_to_list in Hin. by exists u.
  - intros [u Hu]. exists (t, u). split; [done|].
    by apply elem_of_map_to_list.
Qed.

Lemma elem_of_ManifestMediaTypes
    (mappings : gmap string distribution.UnmarshalFunc) t :
  t ∈ distribution.ManifestMediaTypes mappings
  ↔ t ≠ "" ∧ is_Some (mappings !! t).
Proof.
  unfold distribution.ManifestMediaTypes.
  rewrite elem_of_difference, elem_of_dom, not_elem_of_singleton. tauto.
Qed.

(** What a key is bound to after a call of [RegisterManifestSchema]: the
    old binding when there was one, the new function for the key of the
    call when it was free. *)
Lemma RegisterManifestSchema_lookup
    (mappings : gmap string distribution.UnmarshalFunc) mediaType u t :
  (distribution.RegisterManifestSchema mappings mediaType u).1 !! t
  = match mappings !! t with
    | Some f => Some f
    | None => if decide (t = mediaType) then Some u else None
    end.
Proof.
  unfold distribution.RegisterManifestSchema.
  destruct (mappings !! mediaType) as [f|] eqn:E; simpl.
  - destruct (mappings !! t) as [g|] eqn:Et; [done|].
    destruct (decide (t = mediaType)) as [-> | Hne]; [congruence | done].
  - destruct (decide (t = mediaType)) as [-> | Hne].
    + by rewrite lookup_insert_eq, E.
    + rewrite lookup_insert_ne by done. by destruct (mappings !! t).
Qed.

Lemma RegisterManifestSchema_is_Some
    (mappings : gmap string distribution.UnmarshalFunc) mediaType u t :
  is_Some ((distribution.RegisterManifestSchema mappings mediaType u).1 !! t)
  ↔ is_Some (mappings !! t) ∨ t = mediaType.
Proof.
  rewrite RegisterManifestSchema_lookup.
  destruct (mappings !! t) as [f|] eqn:Et.
  - split; [by left | eauto].
  - destruct (decide (t = mediaType)) as [-> | Hne].
    + split; [by right | eauto].
    + split; [by intros [? ?] | intros [[? ?] | ?]; done].
Qed.

(** X1.  Whatever the order in which [range] visits the table, the slice
    of [ManifestMediaTypes] holds every bound key other than the empty
    string exactly once and nothing else: it never holds the empty string,
    and as a set it is the set of non-default keys. *)
Theorem ManifestMediaTypes_slice_elements
    (mappings : gmap string distribution.UnmarshalFunc)
    (keys : list string) :
  rangeOrder mappings keys →
  NoDup (ManifestMediaTypes_slice keys)
  ∧ (∀ t, (t ∈ ManifestMediaTypes_slice keys)
          ↔ (t ≠ "" ∧ is_Some (mappings !! t)))
  ∧ ("" ∉ ManifestMediaTypes_slice keys)
  ∧ list_to_set (ManifestMediaTypes_slice keys)
    = distribution.ManifestMediaTypes mappings
  ∧ (∀ keys', rangeOrder mappings keys' →
       ManifestMediaTypes_slice keys' ≡ₚ ManifestMediaTypes_slice keys).
Proof.
  intros H. rewrite ManifestMediaTypes_slice_filter.
  assert (Hel : ∀ t, t ∈ filter (λ t, t ≠ "") keys
                     ↔ t ≠ "" ∧ is_Some (mappings !! t)).
  { intros t. rewrite list_elem_of_filter.
    by rewrite (rangeOrder_elem mappings keys t H). }
  split; [| split; [exact Hel | split; [| split]]].
  - apply NoDup_filter. unfold rangeOrder in H. rewrite H.
    apply NoDup_fst_map_to_list.
  - rewrite Hel. by intros [? _].
  - apply set_eq. intros t.
    by rewrite elem_of_list_to_set, Hel, elem_of_ManifestMediaTypes.
  - intros keys' H'. rewrite ManifestMediaTypes_slice_filter.
    unfold rangeOrder in H, H'. by rewrite H, H'.
Qed.

(** X2.  After a call of [RegisterManifestSchema], refused or not, the set
    of advertised media types is the set before the call with the key
    added, except that the empty key (the default) is never advertised. *)
Theorem ManifestMediaTypes_after_register
    (mappings : gmap string distribution.UnmarshalFunc)
    (mediaType : string) (u : distribution.UnmarshalFunc) :
  distribution.ManifestMediaTypes
    (distribution.RegisterManifestSchema mappings mediaType u).1
  = (if decide (mediaType = "")
     then distribution.ManifestMediaTypes mappings
     else {[ mediaType ]} ∪ distribution.ManifestMediaTypes mappings)
  ∧ ("" ∉ distribution.ManifestMediaTypes
            (distribution.RegisterManifestSchema mappings mediaType u).1).
Proof.
  split.
  - destruct (decide (mediaType = "")) as [-> | Hne]; apply set_eq; intros t;
      rewrite ?elem_of_union, ?elem_of_singleton,
        !elem_of_ManifestMediaTypes, RegisterManifestSchema_is_Some.
    + intuition congruence.
    + split; [intuition congruence|].
      intros [-> | [? ?]]; [split; [done | by right] | split; [done | by left]].
  - rewrite elem_of_ManifestMediaTypes. by intros [? _].
Qed.

(** X3.  A media type that [ManifestMediaTypes] advertises and that the
    MIME parser returns unchanged is handed to the function registered
    under it: neither the default function nor the unsupported-media-type
    error is reached. *)
Theorem advertised_media_type_is_dispatched
    (ParseMediaType : string → distribution.error + string)
    (mappings : gmap string distribution.UnmarshalFunc)
    (t : string) (p : bytes) :
  t ∈ distribution.ManifestMediaTypes mappings →
  ParseMediaType t = inr t →
  ∃ u, mappings !! t = Some u
       ∧ distribution.UnmarshalManifest ParseMediaType mappings t p = u p.
Proof.
  intros Hin Hp. unfold distribution.ManifestMediaTypes in Hin.
  apply elem_of_difference in Hin as [Hd Hne].
  apply elem_of_dom in Hd as [u Hu]. apply not_elem_of_singleton in Hne.
  exists u. split; [done|].
  eapply UnmarshalManifest_hit; [| exact Hu].
  by rewrite headerMediaType_nonempty.
Qed.

(** X4.  Registration followed by dispatch: when the key is free, the
    call goes through, and from then on every header whose media type is
    that key is handed to the function just registered. *)
Theorem RegisterManifestSchema_then_UnmarshalManifest
    (ParseMediaType : string → distribution.error + string)
    (mappings : gmap string distribution.UnmarshalFunc)
    (mediaType : string) (u : distribution.UnmarshalFunc)
    (ctHeader : string) (p : bytes) :
  mappings !! mediaType = None →
  distribution.headerMediaType ParseMediaType ctHeader = inr mediaType →
  (distribution.RegisterManifestSchema mappings mediaType u).2 = None
  ∧ distribution.UnmarshalManifest ParseMediaType
      (distribution.RegisterManifestSchema mappings mediaType u).1 ctHeader p
    = u p.
Proof.
  intros Hfree Hh.
  rewrite (RegisterManifestSchema_fresh mappings mediaType u Hfree). simpl.
  split; [done|].
  eapply UnmarshalManifest_hit; [exact Hh | apply lookup_insert_eq].
Qed.

(** X5.  A registration does not disturb other media types: for a header
    whose media type is not the key of the call, the outcome of
    [UnmarshalManifest] is the same before and after the call, provided
    the key is not the default or the media type of the header is
    bound. *)
Theorem RegisterManifestSchema_frame
    (ParseMediaType : string → distribution.error + string)
    (mappings : gmap string distribution.UnmarshalFunc)
    (mediaType : string) (u : distribution.UnmarshalFunc)
    (ctHeader mediaType' : string) (p : bytes) :
  distribution.headerMediaType ParseMediaType ctHeader = inr mediaType' →
  mediaType' ≠ mediaType →
  mediaType ≠ "" ∨ is_Some (mappings !! mediaType') →
  distribution.UnmarshalManifest ParseMediaType
    (distribution.RegisterManifestSchema mappings mediaType u).1 ctHeader p
  = distribution.UnmarshalManifest ParseMediaType mappings ctHeader p.
Proof.
  intros Hh Hne Hor. unfold distribution.UnmarshalManifest.
  rewrite Hh. simpl. rewrite !RegisterManifestSchema_lookup.
  destruct (mappings !! mediaType') as [f|] eqn:E; [done|].
  destruct (decide (mediaType' = mediaType)) as [? | _]; [done|].
  destruct Hor as [Hd | [? ?]]; [|done].
  destruct (mappings !! "") as [g|]; [done|].
  destruct (decide ("" = mediaType)) as [<- | _]; done.
Qed.

(** X6.  Registering a default: a header whose media type is not bound is
    refused with the unsupported-media-type error while the empty key is
    free, and is handed to the default function once one is registered
    under the empty key. *)
Theorem default_registration_catches_unbound
    (ParseMediaType : string → distribution.error + string)
    (mappings : gmap string distribution.UnmarshalFunc)
    (u : distribution.UnmarshalFunc)
    (ctHeader mediaType : string) (p : bytes) :
  mappings !! "" = None →
  distribution.headerMediaType ParseMediaType ctHeader = inr mediaType →
  mappings !! mediaType = None →
  distribution.UnmarshalManifest ParseMediaType mappings ctHeader p
  = (None, distribution.Descriptor_zero,
     Some (UnsupportedMediaTypeError mediaType))
  ∧ distribution.UnmarshalManifest ParseMediaType
      (distribution.RegisterManifestSchema mappings "" u).1 ctHeader p
    = u p.
Proof.
  intros Hd Hh Hm. split; [by eapply UnmarshalManifest_unsupported|].
  rewrite (RegisterManifestSchema_fresh mappings "" u Hd). simpl.
  destruct (decide (mediaType = "")) as [-> | Hne].
  - eapply UnmarshalManifest_hit; [exact Hh | apply lookup_insert_eq].
  - eapply UnmarshalManifest_default; [exact Hh | | apply lookup_insert_eq].
    by rewrite lookup_insert_ne.
Qed.

(** X7.  A key that the MIME parser never returns, other than the empty
    key, is never looked up: [UnmarshalManifest] gives the same outcome
    with and without its binding. *)
Theorem UnmarshalManifest_unreachable_key
    (ParseMediaType : string → distribution.error + string)
    (mappings : gmap string distribution.UnmarshalFunc)
    (k ctHeader : string) (p : bytes) :
  k ≠ "" →
  (∀ h mediaType, ParseMediaType h = inr mediaType → mediaType ≠ k) →
  distribution.UnmarshalManifest ParseMediaType mappings ctHeader p
  = distribution.UnmarshalManifest ParseMediaType (delete k mappings)
      ctHeader p.
Proof.
  intros Hk Hnever. unfold distribution.UnmarshalManifest.
  destruct (distribution.headerMediaType ParseMediaType ctHeader)
    as [err | mediaType] eqn:Hh; [done|].
  assert (mediaType ≠ k) as Hne.
  { unfold distribution.headerMediaType in Hh.
    destruct (decide (ctHeader ≠ "")); [by eapply Hnever|].
    injection Hh as <-. done. }
  rewrite !lookup_delete_ne by done. done.
Qed.

(** The table at the end of a run of registrations: the bindings of the
    start table, then for every other key the first call of the run. *)
Lemma registerAll_union
    (calls : list (string * distribution.UnmarshalFunc)) :
  ∀ mappings : gmap string distribution.UnmarshalFunc,
    (registerAll mappings calls).1 = mappings ∪ list_to_map calls.
Proof.
  induction calls as [| [k u] calls IH]; intros mappings; simpl.
  - by rewrite (right_id_L ∅ (∪)).
  - specialize (IH (distribution.RegisterManifestSchema mappings k u).1).
    destruct (distribution.RegisterManifestSchema mappings k u)
      as [m1 e1] eqn:E.
    simpl in IH.
    destruct (registerAll m1 calls) as [m2 errs]. simpl in *. subst m2.
    unfold distribution.RegisterManifestSchema in E.
    destruct (mappings !! k) as [f|] eqn:Ek; injection E as <- <-.
    + apply map_eq. intros t. rewrite !lookup_union.
      destruct (decide (t = k)) as [-> | Hne].
      * rewrite Ek, lookup_insert_eq.
        by destruct (list_to_map calls !! k).
      * by rewrite lookup_insert_ne.
    + rewrite <- insert_union_l. by rewrite insert_union_r.
Qed.

Lemma list_to_map_first
    (calls : list (string * distribution.UnmarshalFunc)) :
  ∀ i k u,
    calls !! i = Some (k, u) →
    (∀ j c, j < i → calls !! j = Some c → c.1 ≠ k) →
    (list_to_map calls : gmap string distribution.UnmarshalFunc) !! k
    = Some u.
Proof.
  induction calls as [| [k0 u0] calls IH]; intros i k u Hi Hfirst.
  - by destruct i.
  - rewrite list_to_map_cons. destruct i as [| i]; simpl in Hi.
    + injection Hi as -> ->. apply lookup_insert_eq.
    + assert (k0 ≠ k) by (apply (Hfirst 0 (k0, u0)); [lia | done]).
      rewrite lookup_insert_ne by done.
      apply (IH i k u Hi). intros j c Hj Hc.
      apply (Hfirst (S j) c); [lia | done].
Qed.

Lemma RegisterManifestSchema_None
    (mappings : gmap string distribution.UnmarshalFunc) mediaType u t :
  (distribution.RegisterManifestSchema mappings mediaType u).1 !! t = None
  ↔ mappings !! t = None ∧ t ≠ mediaType.
Proof.
  rewrite !eq_None_not_Some, RegisterManifestSchema_is_Some. tauto.
Qed.

Lemma registerAll_success
    (calls : list (string * distribution.UnmarshalFunc)) :
  ∀ (mappings : gmap string distribution.UnmarshalFunc) i,
    (registerAll mappings calls).2 !! i = Some None
    ↔ ∃ k u, calls !! i = Some (k, u)
             ∧ mappings !! k = None
             ∧ k ∉ (take i calls).*1.
Proof.
  induction calls as [| [k0 u0] calls IH]; intros mappings i.
  - simpl. split; [by destruct i | by intros (k & u & H & _); destruct i].
  - simpl.
    pose proof (RegisterManifestSchema_None mappings k0 u0) as Hnone.
    specialize (IH (distribution.RegisterManifestSchema mappings k0 u0).1).
    assert (He : (distribution.RegisterManifestSchema mappings k0 u0).2 = None
                 ↔ mappings !! k0 = None).
    { unfold distribution.RegisterManifestSchema.
      by destruct (mappings !! k0). }
    destruct (distribution.RegisterManifestSchema mappings k0 u0)
      as [m1 e1]. simpl in *.
    specialize (IH (pred i)).
    destruct (registerAll m1 calls) as [m2 errs]. simpl in *.
    destruct i as [| i]; simpl in *.
    + split.
      * intros [= ->]. exists k0, u0. rewrite <- He. repeat split.
        apply not_elem_of_nil.
      * intros (k & u & [= <- <-] & Hk & _). f_equal. by apply He.
    + rewrite IH. split; intros (k & u & Hc & Hk & Hnot); exists k, u.
      * apply Hnone in Hk as [Hk Hne]. repeat split; try done.
        rewrite not_elem_of_cons. done.
      * rewrite not_elem_of_cons in Hnot. destruct Hnot as [Hne Hnot].
        repeat split; try done. by apply Hnone.
Qed.

(** X8.  First registration wins.  At the end of a run of registrations,
    a key bound in the start table is bound as before; a key that was free
    is bound to the function of the first call of the run for that key;
    a key that was free and has no call is still free. *)
Theorem registerAll_first_wins
    (mappings : gmap string distribution.UnmarshalFunc)
    (calls : list (string * distribution.UnmarshalFunc)) (k : string) :
  (∀ f, mappings !! k = Some f →
        (registerAll mappings calls).1 !! k = Some f)
  ∧ (∀ i u, mappings !! k = None →
            calls !! i = Some (k, u) →
            (∀ j c, j < i → calls !! j = Some c → c.1 ≠ k) →
            (registerAll mappings calls).1 !! k = Some u)
  ∧ (mappings !! k = None → k ∉ calls.*1 →
     (registerAll mappings calls).1 !! k = None).
Proof.
  rewrite registerAll_union. repeat split.
  - intros f Hf. by apply lookup_union_Some_l.
  - intros i u Hk Hi Hfirst. rewrite lookup_union_r by done.
    by apply (list_to_map_first calls i k u).
  - intros Hk Hnot. rewrite lookup_union_r by done.
    by apply not_elem_of_list_to_map_1.
Qed.

(** X9.  The order of registrations for distinct keys does not matter:
    two runs that make the same calls in different orders, no key being
    registered twice, end with the same table. *)
Theorem registerAll_order_irrelevant
    (mappings : gmap string distribution.UnmarshalFunc)
    (calls calls' : list (string * distribution.UnmarshalFunc)) :
  NoDup calls.*1 →
  calls ≡ₚ calls' →
  (registerAll mappings calls).1 = (registerAll mappings calls').1.
Proof.
  intros Hnd Hp. rewrite !registerAll_union.
  by rewrite (list_to_map_proper calls calls' Hnd Hp).
Qed.

(** X10.  Which calls of a run go through: call number [i] returns no
    error exactly when its key is free in the start table and is not the
    key of an earlier call of the run. *)
Theorem registerAll_succeeds_iff
    (mappings : gmap string distribution.UnmarshalFunc)
    (calls : list (string * distribution.UnmarshalFunc))
    (i : nat) (k : string) (u : distribution.UnmarshalFunc) :
  calls !! i = Some (k, u) →
  ((registerAll mappings calls).2 !! i = Some None
   ↔ mappings !! k = None ∧ k ∉ (take i calls).*1)
  ∧ ((registerAll mappings calls).2 !! i
     = Some (Some (DuplicateRegistrationError k))
     ↔ is_Some (mappings !! k) ∨ k ∈ (take i calls).*1).
Proof.
  intros Hi.
  assert (H1 : (registerAll mappings calls).2 !! i = Some None
               ↔ mappings !! k = None ∧ k ∉ (take i calls).*1).
  { rewrite registerAll_success. split.
    - intros (k' & u' & Hc & H). rewrite Hi in Hc. by injection Hc as <- <-.
    - intros H. by exists k, u. }
  split; [exact H1|].
  assert (Hcases : (registerAll mappings calls).2 !! i = Some None
                   ∨ (registerAll mappings calls).2 !! i
                     = Some (Some (DuplicateRegistrationError k))).
  { clear H1. revert mappings i Hi.
    induction calls as [| [k0 u0] calls IH]; intros mappings i Hi;
      [by destruct i|].
    simpl.
    destruct (distribution.RegisterManifestSchema mappings k0 u0)
      as [m1 e1] eqn:E.
    specialize (IH m1 (pred i)).
    destruct (registerAll m1 calls) as [m2 errs]. simpl in *.
    destruct i as [| i]; simpl in *.
    - injection Hi as -> ->. unfold distribution.RegisterManifestSchema in E.
      destruct (mappings !! k); injection E as <- <-; [by right | by left].
    - by apply IH. }
  split.
  - intros Hdup.
    destruct (mappings !! k) as [f|] eqn:Ek; [left; eauto|].
    destruct (decide (k ∈ (take i calls).*1)) as [Hin | Hnot]; [by right|].
    assert ((registerAll mappings calls).2 !! i = Some None) as Hn
      by (apply H1; done).
    rewrite Hn in Hdup. discriminate.
  - intros Hor. destruct Hcases as [Hn | Hd]; [|done].
    apply H1 in Hn as [Hk Hnot].
    destruct Hor as [[f Hf] | Hin]; [congruence | contradiction].
Qed.

(* ===================================================================== *)
(** ** Further properties of the piddle manifest *)
(* ===================================================================== *)

(** X11.  [init] registers once.  On a table where the piddle media type
    is free it returns the table with [schema2Func] bound to it, and a
    second run on that table panics; on a table where the media type is
    bound it panics with the message of the refused registration. *)
Theorem init_registers_once
    (json_Unmarshal : bytes → distribution.error + piddle.Manifest)
    (digest_FromBytes : bytes → string)
    (mappings : gmap string distribution.UnmarshalFunc) :
  (mappings !! piddle.MediaTypeImageIndex = None →
   piddle.init json_Unmarshal digest_FromBytes mappings
   = inr (<[ piddle.MediaTypeImageIndex
             := piddle.schema2Func json_Unmarshal digest_FromBytes ]>
            mappings)
   ∧ piddle.init json_Unmarshal digest_FromBytes
       (<[ piddle.MediaTypeImageIndex
           := piddle.schema2Func json_Unmarshal digest_FromBytes ]>
          mappings)
     = inl ("Unable to register manifest: "
              ++ "manifest media type registration would overwrite existing: "
              ++ piddle.MediaTypeImageIndex))
  ∧ (is_Some (mappings !! piddle.MediaTypeImageIndex) →
     piddle.init json_Unmarshal digest_FromBytes mappings
     = inl ("Unable to register manifest: "
              ++ "manifest media type registration would overwrite existing: "
              ++ piddle.MediaTypeImageIndex)).
Proof.
  split.
  - intros Hfree. split.
    + unfold piddle.init.
      by rewrite (RegisterManifestSchema_fresh mappings _ _ Hfree).
    + apply (init_bound _ _ _
               (piddle.schema2Func json_Unmarshal digest_FromBytes)).
      apply lookup_insert_eq.
  - intros [u Hu]. by apply (init_bound _ _ _ u).
Qed.

(** X12.  After [init] has run without panic, the piddle media type is
    advertised by [ManifestMediaTypes], and [UnmarshalManifest] hands
    every header with that media type to [schema2Func]. *)
Theorem init_then_UnmarshalManifest
    (ParseMediaType : string → distribution.error + string)
    (json_Unmarshal : bytes → distribution.error + piddle.Manifest)
    (digest_FromBytes : bytes → string)
    (mappings mappings' : gmap string distribution.UnmarshalFunc)
    (ctHeader : string) (p : bytes) :
  piddle.init json_Unmarshal digest_FromBytes mappings = inr mappings' →
  distribution.headerMediaType ParseMediaType ctHeader
  = inr piddle.MediaTypeImageIndex →
  mappings !! piddle.MediaTypeImageIndex = None
  ∧ piddle.MediaTypeImageIndex ∈ distribution.ManifestMediaTypes mappings'
  ∧ distribution.UnmarshalManifest ParseMediaType mappings' ctHeader p
    = piddle.schema2Func json_Unmarshal digest_FromBytes p
  ∧ (∀ t, t ≠ piddle.MediaTypeImageIndex →
          mappings' !! t = mappings !! t).
Proof.
  intros Hinit Hh. unfold piddle.init in Hinit.
  destruct (mappings !! piddle.MediaTypeImageIndex) as [u|] eqn:E.
  - rewrite (RegisterManifestSchema_bound mappings _ u) in Hinit by done.
    discriminate.
  - rewrite (RegisterManifestSchema_fresh mappings _ _ E) in Hinit.
    injection Hinit as <-. split; [done|]. split; [| split].
    + apply elem_of_ManifestMediaTypes. split; [done|].
      rewrite lookup_insert_eq. eauto.
    + eapply UnmarshalManifest_hit; [exact Hh | apply lookup_insert_eq].
    + intros t Hne. by rewrite lookup_insert_ne.
Qed.

(** X13.  [UnmarshalJSON] does not depend on what the receiver held: the
    error is the same for every receiver, a call that succeeds leaves
    every receiver in the same state, and calling it again with the same
    input changes nothing. *)
Theorem UnmarshalJSON_receiver_independent
    (json_Unmarshal : bytes → distribution.error + piddle.Manifest)
    (m1 m2 : piddle.DeserializedManifest) (b : bytes) :
  (piddle.UnmarshalJSON json_Unmarshal m1 b).2
  = (piddle.UnmarshalJSON json_Unmarshal m2 b).2
  ∧ ((piddle.UnmarshalJSON json_Unmarshal m1 b).2 = None →
     piddle.UnmarshalJSON json_Unmarshal m1 b
     = piddle.UnmarshalJSON json_Unmarshal m2 b)
  ∧ piddle.UnmarshalJSON json_Unmarshal
      (piddle.UnmarshalJSON json_Unmarshal m1 b).1 b
    = piddle.UnmarshalJSON json_Unmarshal m1 b.
Proof.
  destruct (json_Unmarshal b) as [err | decoded] eqn:E.
  - by rewrite !(UnmarshalJSON_decode_error _ _ b err E).
  - destruct (decide (piddle.MediaType decoded = piddle.MediaTypeImageIndex))
      as [He | Hne].
    + by rewrite !(UnmarshalJSON_ok _ _ b decoded E He).
    + by rewrite !(UnmarshalJSON_mismatch _ _ b decoded E Hne).
Qed.

(** X14.  [MarshalJSON] after [UnmarshalJSON]: whether the call of
    [UnmarshalJSON] succeeded or failed, [MarshalJSON] on the receiver
    then returns the input bytes without error when the input is not
    empty, and fails with the not-initialized error when it is empty;
    [Payload] returns the input bytes in both cases. *)
Theorem MarshalJSON_after_UnmarshalJSON
    (json_Unmarshal : bytes → distribution.error + piddle.Manifest)
    (m : piddle.DeserializedManifest) (b : bytes) :
  piddle.MarshalJSON (piddle.UnmarshalJSON json_Unmarshal m b).1
  = (if decide (b = []) then ([], Some UninitializedManifestError)
     else (b, None))
  ∧ (piddle.Payload (piddle.UnmarshalJSON json_Unmarshal m b).1).1.2 = b
  ∧ (piddle.Payload (piddle.UnmarshalJSON json_Unmarshal m b).1).2 = None.
Proof.
  unfold piddle.MarshalJSON, piddle.Payload. simpl.
  rewrite UnmarshalJSON_canonical. split; [| done].
  destruct b as [| x b]; simpl; done.
Qed.

(** X15.  [FromStruct] does not check the media type.  For a manifest
    whose media-type field is not [MediaTypeImageIndex], whose encoding
    succeeds and is read back by the decoder, [FromStruct] succeeds and
    its payload carries that media type, but the read path refuses the
    payload bytes with the schema-mismatch error. *)
Theorem FromStruct_accepts_other_media_type
    (json_MarshalIndent
       : piddle.Manifest → string → string → bytes * option distribution.error)
    (json_Unmarshal : bytes → distribution.error + piddle.Manifest)
    (digest_FromBytes : bytes → string)
    (M : piddle.Manifest) (b : bytes) :
  piddle.MediaType M ≠ piddle.MediaTypeImageIndex →
  json_MarshalIndent M "" "   " = (b, None) →
  json_Unmarshal b = inr M →
  piddle.FromStruct json_MarshalIndent M
  = (piddle.mkDeserializedManifest M b, None)
  ∧ piddle.Payload (piddle.FromStruct json_MarshalIndent M).1
    = (piddle.MediaType M, b, None)
  ∧ piddle.schema2Func json_Unmarshal digest_FromBytes
      (piddle.Payload (piddle.FromStruct json_MarshalIndent M).1).1.2
    = (None, distribution.Descriptor_zero,
       Some (SchemaMismatchError (piddle.MediaType M))).
Proof.
  intros Hne Henc Hdec. unfold piddle.FromStruct. rewrite Henc. simpl.
  repeat split. apply schema2Func_error.
  by rewrite (UnmarshalJSON_mismatch _ _ b M Hdec Hne).
Qed.

(** X16.  The shape of what [schema2Func] returns: either no manifest, the
    zero descriptor and an error, which is the error of the decoder or the
    schema-mismatch error; or a manifest holding the decoded fields and
    the input bytes, a descriptor of the input and no error.  It never
    returns a manifest together with an error, nor neither of them. *)
Theorem schema2Func_manifest_xor_error
    (json_Unmarshal : bytes → distribution.error + piddle.Manifest)
    (digest_FromBytes : bytes → string) (b : bytes) :
  (∃ err,
     piddle.schema2Func json_Unmarshal digest_FromBytes b
     = (None, distribution.Descriptor_zero, Some err)
     ∧ (json_Unmarshal b = inl err
        ∨ ∃ decoded,
            json_Unmarshal b = inr decoded
            ∧ piddle.MediaType decoded ≠ piddle.MediaTypeImageIndex
            ∧ err = SchemaMismatchError (piddle.MediaType decoded)))
  ∨ (∃ decoded,
       json_Unmarshal b = inr decoded
       ∧ piddle.MediaType decoded = piddle.MediaTypeImageIndex
       ∧ piddle.schema2Func json_Unmarshal digest_FromBytes b
         = (Some (distribution.mkManifestValue
                    (piddle.mkDeserializedManifest decoded b)),
            distribution.mkDescriptor piddle.MediaTypeImageIndex
              (Z.of_nat (length b)) (digest_FromBytes b) [] ∅ None,
            None)).
Proof.
  destruct (json_Unmarshal b) as [err | decoded] eqn:E.
  - left. exists err. split; [| by left].
    apply schema2Func_error.
    by rewrite (UnmarshalJSON_decode_error _ _ b err E).
  - destruct (decide (piddle.MediaType decoded = piddle.MediaTypeImageIndex))
      as [He | Hne].
    + right. exists decoded. repeat split; [done|].
      by apply schema2Func_ok.
    + left. exists (SchemaMismatchError (piddle.MediaType decoded)). split.
      * apply schema2Func_error.
        by rewrite (UnmarshalJSON_mismatch _ _ b decoded E Hne).
      * right. by exists decoded.
Qed.

(** X17.  [Target()] is the first element of [References()], which is
    never empty: a manifest without layers, and the zero manifest too,
    lists exactly one reference, its config descriptor. *)
Theorem Target_is_first_reference (m : piddle.Manifest) :
  piddle.References m !! 0 = Some (piddle.Target m)
  ∧ piddle.References m ≠ []
  ∧ (length (piddle.References m) = 1 ↔ piddle.Layers m = [])
  ∧ piddle.References piddle.Manifest_zero
    = [distribution.Descriptor_zero].
Proof.
  rewrite References_cons. repeat split; try done.
  - simpl. intros H. destruct (piddle.Layers m); [done | discriminate].
  - intros ->. done.
Qed.

(** X20.  [FromStruct] on an encoding failure: when the encoder returns
    an error and no bytes, [FromStruct] returns the error together with a
    value that holds the manifest given; that value has no canonical
    bytes, so its [MarshalJSON] fails with the not-initialized error and
    its [Payload] is empty, while its references are those of the
    manifest. *)
Theorem FromStruct_on_encoding_error
    (json_MarshalIndent
       : piddle.Manifest → string → string → bytes * option distribution.error)
    (M : piddle.Manifest) (err : distribution.error) :
  json_MarshalIndent M "" "   " = ([], Some err) →
  piddle.FromStruct json_MarshalIndent M
  = (piddle.mkDeserializedManifest M [], Some err)
  ∧ piddle.MarshalJSON (piddle.FromStruct json_MarshalIndent M).1
    = ([], Some UninitializedManifestError)
  ∧ piddle.Payload (piddle.FromStruct json_MarshalIndent M).1
    = (piddle.MediaType M, [], None)
  ∧ distribution.References (piddle.FromStruct json_MarshalIndent M).1
    = piddle.References M.
Proof.
  intros H. unfold piddle.FromStruct. rewrite H. done.
Qed.

(* ===================================================================== *)
(** ** Properties of the request helpers ([registry/handlers/context.go]) *)
(* ===================================================================== *)

(** X18.  [getDigest] succeeds exactly when the context holds a non-empty
    digest string that [digest.Parse] accepts.  When it fails, the digest
    returned is the empty string and one line is logged; when it succeeds
    the digest is the one [digest.Parse] returned and nothing is logged.
    With no digest string in the context the parser is not consulted and
    the error is [errDigestNotAvailable]. *)
Theorem getDigest_outcome
    (Ctx : Type) (GetStringValue : Ctx → string → string)
    (digest_Parse digest_Parse' : string → string * option distribution.error)
    (ctx : Ctx) :
  ((handlers.getDigest Ctx GetStringValue digest_Parse ctx).1.2 = None
   ↔ GetStringValue ctx "vars.digest" ≠ ""
     ∧ (digest_Parse (GetStringValue ctx "vars.digest")).2 = None)
  ∧ ((handlers.getDigest Ctx GetStringValue digest_Parse ctx).1.2 ≠ None →
     (handlers.getDigest Ctx GetStringValue digest_Parse ctx).1.1 = ""
     ∧ length (handlers.getDigest Ctx GetStringValue digest_Parse ctx).2 = 1)
  ∧ ((handlers.getDigest Ctx GetStringValue digest_Parse ctx).1.2 = None →
     (handlers.getDigest Ctx GetStringValue digest_Parse ctx).1.1
     = (digest_Parse (GetStringValue ctx "vars.digest")).1
     ∧ (handlers.getDigest Ctx GetStringValue digest_Parse ctx).2 = [])
  ∧ (GetStringValue ctx "vars.digest" = "" →
     handlers.getDigest Ctx GetStringValue digest_Parse ctx
     = handlers.getDigest Ctx GetStringValue digest_Parse' ctx
     ∧ (handlers.getDigest Ctx GetStringValue digest_Parse ctx).1.2
       = Some handlers.errDigestNotAvailable).
Proof.
  unfold handlers.getDigest.
  destruct (decide (GetStringValue ctx "vars.digest" = "")) as [He | Hne].
  - simpl. repeat split; try done. by intros [? _].
  - destruct (digest_Parse (GetStringValue ctx "vars.digest")) as [d [e|]];
      simpl; repeat split; try done. by intros [_ ?].
Qed.

(** X19.  [getUserName]: a non-empty user name in the context wins over
    the basic authentication of the request; without one, the result is
    the user name of the basic authentication when the request carries
    it, and the empty string otherwise.  The password plays no part: two
    requests that agree on user name and presence of basic authentication
    give the same result. *)
Theorem getUserName_precedence
    (Ctx : Type) (GetStringValue : Ctx → string → string)
    (Request : Type) (basicAuth basicAuth' : Request → string * string * bool)
    (UserNameKey : string) (ctx : Ctx) (r : Request) :
  (GetStringValue ctx UserNameKey ≠ "" →
   handlers.getUserName Ctx GetStringValue Request basicAuth UserNameKey ctx r
   = GetStringValue ctx UserNameKey)
  ∧ (GetStringValue ctx UserNameKey = "" →
     handlers.getUserName Ctx GetStringValue Request basicAuth UserNameKey
       ctx r
     = if (basicAuth r).2 then (basicAuth r).1.1 else "")
  ∧ ((basicAuth r).1.1 = (basicAuth' r).1.1 →
     (basicAuth r).2 = (basicAuth' r).2 →
     handlers.getUserName Ctx GetStringValue Request basicAuth UserNameKey
       ctx r
     = handlers.getUserName Ctx GetStringValue Request basicAuth' UserNameKey
         ctx r)
  ∧ (handlers.getUserName Ctx GetStringValue Request basicAuth UserNameKey
       ctx r = ""
     ↔ GetStringValue ctx UserNameKey = ""
       ∧ ((basicAuth r).2 = false ∨ (basicAuth r).1.1 = "")).
Proof.
  unfold handlers.getUserName.
  destruct (decide (GetStringValue ctx UserNameKey = "")) as [He | Hne].
  - destruct (basicAuth r) as [[uname pw] ok].
    destruct (basicAuth' r) as [[uname' pw'] ok']. simpl.
    repeat split; try done.
    + by destruct ok.
    + intros -> ->. done.
    + destruct ok; [by right | by left].
    + intros [_ [-> | ->]]; [done | by destruct ok].
  - repeat split; try done. by intros [? _].
Qed.

(* ===================================================================== *)
(** ** The further properties run on concrete inputs *)
(* ===================================================================== *)

Lemma toLowerChar_idem (c : ascii) :
  Reference.toLowerChar (Reference.toLowerChar c) = Reference.toLowerChar c.
Proof.
  destruct c as [[] [] [] [] [] [] [] []]; vm_compute; reflexivity.
Qed.

Lemma isSpace_toLowerChar (c : ascii) :
  Reference.isSpace (Reference.toLowerChar c) = Reference.isSpace c.
Proof.
  destruct c as [[] [] [] [] [] [] [] []]; vm_compute; reflexivity.
Qed.

Lemma ToLower_idem (s : string) :
  Reference.ToLower (Reference.ToLower s) = Reference.ToLower s.
Proof.
  induction s as [| c s IH]; simpl; [done|].
  by rewrite toLowerChar_idem, IH.
Qed.

Lemma ToLower_TrimLeft (s : string) :
  Reference.ToLower (Reference.TrimLeft s)
  = Reference.TrimLeft (Reference.ToLower s).
Proof.
  induction s as [| c s IH]; simpl; [done|].
  rewrite isSpace_toLowerChar. by destruct (Reference.isSpace c).
Qed.

Lemma ToLower_TrimRight (s : string) :
  Reference.ToLower (Reference.TrimRight s)
  = Reference.TrimRight (Reference.ToLower s).
Proof.
  induction s as [| c s IH]; simpl; [done|].
  rewrite <- IH, isSpace_toLowerChar.
  destruct (Reference.TrimRight s); simpl; [|done].
  by destruct (Reference.isSpace c).
Qed.

(** The reference parser returns media types without capital letters. *)
Lemma ParseMediaType_lower (v mediaType : string) :
  Reference.ParseMediaType v = inr mediaType →
  Reference.ToLower mediaType = mediaType.
Proof.
  unfold Reference.ParseMediaType.
  destruct (Reference.cutSemicolon v) as [base rest].
  destruct (Reference.checkMediaTypeDisposition _); [discriminate|].
  destruct (Reference.parseParams _ _ _); [discriminate|].
  intros [= <-]. unfold Reference.TrimSpace.
  by rewrite ToLower_TrimRight, ToLower_TrimLeft, ToLower_idem.
Qed.

(** Witness of X1: the table with three keys, visited in the order of
    its list of entries. *)
Lemma ManifestMediaTypes_slice_elements_witness :
  rangeOrder MoreExamples.mixed (map_to_list MoreExamples.mixed).*1
  ∧ NoDup (ManifestMediaTypes_slice (map_to_list MoreExamples.mixed).*1)
  ∧ list_to_set
      (ManifestMediaTypes_slice (map_to_list MoreExamples.mixed).*1)
    = distribution.ManifestMediaTypes MoreExamples.mixed.
Proof.
  assert (H : rangeOrder MoreExamples.mixed
                (map_to_list MoreExamples.mixed).*1)
    by (unfold rangeOrder; reflexivity).
  destruct (ManifestMediaTypes_slice_elements MoreExamples.mixed
              (map_to_list MoreExamples.mixed).*1 H)
    as (H1 & _ & _ & H4 & _).
  split; [exact H|]. split; [exact H1 | exact H4].
Defined.

(** Witness of X3: the piddle media type in the table after [init]. *)
Lemma advertised_media_type_is_dispatched_witness :
  ∃ u, Examples.registered !! piddle.MediaTypeImageIndex = Some u
       ∧ distribution.UnmarshalManifest Reference.ParseMediaType
           Examples.registered piddle.MediaTypeImageIndex Examples.indexBytes
         = u Examples.indexBytes.
Proof.
  apply (advertised_media_type_is_dispatched Reference.ParseMediaType
           Examples.registered piddle.MediaTypeImageIndex
           Examples.indexBytes).
  - apply (bool_decide_unpack _). vm_compute. exact I.
  - vm_compute. reflexivity.
Defined.

(** Witness of X4: the piddle function registered in the empty table,
    then a header with capital letters and a parameter. *)
Lemma RegisterManifestSchema_then_UnmarshalManifest_witness :
  (distribution.RegisterManifestSchema ∅ piddle.MediaTypeImageIndex
     Examples.schema2Func).2 = None
  ∧ distribution.UnmarshalManifest Reference.ParseMediaType
      (distribution.RegisterManifestSchema ∅ piddle.MediaTypeImageIndex
         Examples.schema2Func).1
      Examples.headerWithCharset Examples.indexBytes
    = Examples.schema2Func Examples.indexBytes.
Proof.
  apply (RegisterManifestSchema_then_UnmarshalManifest
           Reference.ParseMediaType ∅ piddle.MediaTypeImageIndex
           Examples.schema2Func Examples.headerWithCharset
           Examples.indexBytes).
  - reflexivity.
  - vm_compute. reflexivity.
Defined.

(** Witness of X5: another schema is registered next to piddle. *)
Lemma RegisterManifestSchema_frame_witness :
  distribution.UnmarshalManifest Reference.ParseMediaType
    (distribution.RegisterManifestSchema Examples.registered
       "application/vnd.other+json" Examples.otherFunc).1
    Examples.headerWithCharset Examples.indexBytes
  = distribution.UnmarshalManifest Reference.ParseMediaType
      Examples.registered Examples.headerWithCharset Examples.indexBytes.
Proof.
  apply (RegisterManifestSchema_frame Reference.ParseMediaType
           Examples.registered "application/vnd.other+json"
           Examples.otherFunc Examples.headerWithCharset
           piddle.MediaTypeImageIndex Examples.indexBytes).
  - vm_compute. reflexivity.
  - vm_compute. discriminate.
  - left. vm_compute. discriminate.
Defined.

(** Witness of X6: a header of an unbound media type, before and after a
    default is registered next to piddle. *)
Lemma default_registration_catches_unbound_witness :
  distribution.UnmarshalManifest Reference.ParseMediaType
    Examples.registered "text/plain; q=1" Examples.indexBytes
  = (None, distribution.Descriptor_zero,
     Some (UnsupportedMediaTypeError "text/plain"))
  ∧ distribution.UnmarshalManifest Reference.ParseMediaType
      (distribution.RegisterManifestSchema Examples.registered ""
         Examples.otherFunc).1
      "text/plain; q=1" Examples.indexBytes
    = Examples.otherFunc Examples.indexBytes.
Proof.
  apply (default_registration_catches_unbound Reference.ParseMediaType
           Examples.registered Examples.otherFunc "text/plain; q=1"
           "text/plain" Examples.indexBytes).
  - reflexivity.
  - vm_compute. reflexivity.
  - reflexivity.
Defined.

(** Witness of X7: a function registered under a key with capital
    letters is not reached by the header that spells the key; the header
    goes to the default. *)
Lemma UnmarshalManifest_unreachable_key_witness :
  distribution.UnmarshalManifest Reference.ParseMediaType
    MoreExamples.mixed "Application/Json" Examples.indexBytes
  = distribution.UnmarshalManifest Reference.ParseMediaType
      (delete "Application/Json" MoreExamples.mixed)
      "Application/Json" Examples.indexBytes
  ∧ distribution.UnmarshalManifest Reference.ParseMediaType
      MoreExamples.mixed "Application/Json" Examples.indexBytes
    = Examples.otherFunc Examples.indexBytes.
Proof.
  split; [| vm_compute; reflexivity].
  apply (UnmarshalManifest_unreachable_key Reference.ParseMediaType
           MoreExamples.mixed "Application/Json" "Application/Json"
           Examples.indexBytes).
  - discriminate.
  - intros h mediaType H ->. apply ParseMediaType_lower in H.
    vm_compute in H. discriminate H.
Defined.

(** Witness of X8: a run of three calls on the table after [init]. *)
Lemma registerAll_first_wins_witness :
  (registerAll Examples.registered
     [(piddle.MediaTypeImageIndex, Examples.otherFunc);
      ("application/vnd.other+json", Examples.otherFunc);
      ("application/vnd.other+json", MoreExamples.thirdFunc)]).1
    !! piddle.MediaTypeImageIndex
  = Some Examples.schema2Func
  ∧ (registerAll Examples.registered
       [(piddle.MediaTypeImageIndex, Examples.otherFunc);
        ("application/vnd.other+json", Examples.otherFunc);
        ("application/vnd.other+json", MoreExamples.thirdFunc)]).1
      !! "application/vnd.other+json"
    = Some Examples.otherFunc.
Proof.
  split.
  - apply (registerAll_first_wins Examples.registered
             [(piddle.MediaTypeImageIndex, Examples.otherFunc);
              ("application/vnd.other+json", Examples.otherFunc);
              ("application/vnd.other+json", MoreExamples.thirdFunc)]
             piddle.MediaTypeImageIndex).
    reflexivity.
  - apply (registerAll_first_wins Examples.registered
             [(piddle.MediaTypeImageIndex, Examples.otherFunc);
              ("application/vnd.other+json", Examples.otherFunc);
              ("application/vnd.other+json", MoreExamples.thirdFunc)]
             "application/vnd.other+json") with (i := 1).
    + reflexivity.
    + reflexivity.
    + intros j c Hj Hc. destruct j as [| j]; [| lia].
      injection Hc as <-. vm_compute. discriminate.
Defined.

(** Witness of X9: piddle and a default, registered in either order. *)
Lemma registerAll_order_irrelevant_witness :
  (registerAll ∅
     [(piddle.MediaTypeImageIndex, Examples.schema2Func);
      ("", Examples.otherFunc)]).1
  = (registerAll ∅
       [("", Examples.otherFunc);
        (piddle.MediaTypeImageIndex, Examples.schema2Func)]).1.
Proof.
  apply (registerAll_order_irrelevant ∅
           [(piddle.MediaTypeImageIndex, Examples.schema2Func);
            ("", Examples.otherFunc)]
           [("", Examples.otherFunc);
            (piddle.MediaTypeImageIndex, Examples.schema2Func)]).
  - apply (bool_decide_unpack _). vm_compute. exact I.
  - apply perm_swap.
Defined.

(** Witness of X10: the second of two calls for the piddle media type. *)
Lemma registerAll_succeeds_iff_witness :
  (registerAll ∅
     [(piddle.MediaTypeImageIndex, Examples.schema2Func);
      (piddle.MediaTypeImageIndex, Examples.otherFunc)]).2 !! 1
  = Some (Some (DuplicateRegistrationError piddle.MediaTypeImageIndex)).
Proof.
  apply (registerAll_succeeds_iff ∅
           [(piddle.MediaTypeImageIndex, Examples.schema2Func);
            (piddle.MediaTypeImageIndex, Examples.otherFunc)]
           1 piddle.MediaTypeImageIndex Examples.otherFunc).
  - reflexivity.
  - right. apply (bool_decide_unpack _). vm_compute. exact I.
Defined.

(** Witness of X11: [init] on the empty table, and again on its result. *)
Lemma init_registers_once_witness :
  piddle.init Reference.json_Unmarshal Reference.checksum_FromBytes ∅
  = inr Examples.registered
  ∧ piddle.init Reference.json_Unmarshal Reference.checksum_FromBytes
      Examples.registered
    = inl ("Unable to register manifest: "
             ++ "manifest media type registration would overwrite existing: "
             ++ piddle.MediaTypeImageIndex).
Proof.
  destruct (init_registers_once Reference.json_Unmarshal
              Reference.checksum_FromBytes ∅) as [H1 _].
  destruct (init_registers_once Reference.json_Unmarshal
              Reference.checksum_FromBytes Examples.registered) as [_ H2].
  split.
  - exact (proj1 (H1 eq_refl)).
  - apply H2. exists Examples.schema2Func. reflexivity.
Defined.

(** Witness of X12: [init] on the empty table, then a header with
    capital letters and a parameter. *)
Lemma init_then_UnmarshalManifest_witness :
  piddle.MediaTypeImageIndex
    ∈ distribution.ManifestMediaTypes Examples.registered
  ∧ distribution.UnmarshalManifest Reference.ParseMediaType
      Examples.registered Examples.headerWithCharset Examples.indexBytes
    = Examples.schema2Func Examples.indexBytes.
Proof.
  destruct (init_then_UnmarshalManifest Reference.ParseMediaType
              Reference.json_Unmarshal Reference.checksum_FromBytes
              ∅ Examples.registered Examples.headerWithCharset
              Examples.indexBytes
              (init_empty _ _)
              ltac:(vm_compute; reflexivity)) as (_ & H2 & H3 & _).
  split; [exact H2 | exact H3].
Defined.

(** Witness of X13: the example bytes handed to a receiver that holds
    the example index without canonical bytes, and to the zero value. *)
Lemma UnmarshalJSON_receiver_independent_witness :
  piddle.UnmarshalJSON Reference.json_Unmarshal Examples.fresh
    Examples.indexBytes
  = piddle.UnmarshalJSON Reference.json_Unmarshal
      piddle.DeserializedManifest_zero Examples.indexBytes.
Proof.
  destruct (UnmarshalJSON_receiver_independent Reference.json_Unmarshal
              Examples.fresh piddle.DeserializedManifest_zero
              Examples.indexBytes) as (_ & H2 & _).
  apply H2. vm_compute. reflexivity.
Defined.

(** Witness of X15: the example manifest with the media type [wrong]. *)
Lemma FromStruct_accepts_other_media_type_witness :
  piddle.FromStruct Reference.json_MarshalIndent Examples.wrongIndex
  = (piddle.mkDeserializedManifest Examples.wrongIndex
       MoreExamples.wrongBytesIndented, None)
  ∧ piddle.schema2Func Reference.json_Unmarshal Reference.checksum_FromBytes
      (piddle.Payload
         (piddle.FromStruct Reference.json_MarshalIndent
            Examples.wrongIndex).1).1.2
    = (None, distribution.Descriptor_zero,
       Some (SchemaMismatchError "wrong")).
Proof.
  destruct (FromStruct_accepts_other_media_type Reference.json_MarshalIndent
              Reference.json_Unmarshal Reference.checksum_FromBytes
              Examples.wrongIndex MoreExamples.wrongBytesIndented
              ltac:(vm_compute; discriminate)
              ltac:(reflexivity)
              ltac:(vm_compute; reflexivity)) as (H1 & _ & H3).
  split; [exact H1 | exact H3].
Defined.

(** Witness of X17: a manifest without layers. *)
Lemma Target_is_first_reference_witness :
  length (piddle.References Examples.wrongIndex) = 1.
Proof.
  destruct (Target_is_first_reference Examples.wrongIndex)
    as (_ & _ & H3 & _).
  apply H3. reflexivity.
Defined.

(** Witness of X18: a context with a digest, one with a string that is
    no digest, and one without. *)
Lemma getDigest_outcome_witness :
  handlers.getDigest (gmap string string) MoreExamples.GetStringValue
    MoreExamples.colonParse MoreExamples.withDigest
  = ("sha256:aaa", None, [])
  ∧ ((handlers.getDigest (gmap string string) MoreExamples.GetStringValue
        MoreExamples.colonParse MoreExamples.withBadDigest).1.1 = ""
     ∧ length
         (handlers.getDigest (gmap string string)
            MoreExamples.GetStringValue MoreExamples.colonParse
            MoreExamples.withBadDigest).2 = 1)
  ∧ (handlers.getDigest (gmap string string) MoreExamples.GetStringValue
       MoreExamples.colonParse ∅).1.2
    = Some handlers.errDigestNotAvailable.
Proof.
  destruct (getDigest_outcome (gmap string string)
              MoreExamples.GetStringValue MoreExamples.colonParse
              MoreExamples.colonParse MoreExamples.withBadDigest)
    as (_ & H2 & _).
  destruct (getDigest_outcome (gmap string string)
              MoreExamples.GetStringValue MoreExamples.colonParse
              MoreExamples.colonParse ∅) as (_ & _ & _ & H4).
  split; [vm_compute; reflexivity|]. split.
  - apply H2. vm_compute. discriminate.
  - apply H4. reflexivity.
Defined.

(** Witness of X19: a context with a user name and a request with basic
    authentication for another user; then a context without one. *)
Lemma getUserName_precedence_witness :
  handlers.getUserName (gmap string string) MoreExamples.GetStringValue
    (string * string * bool) MoreExamples.basicAuth
    MoreExamples.UserNameKey MoreExamples.withUser
    ("bob", "secret", true)
  = "alice"
  ∧ handlers.getUserName (gmap string string) MoreExamples.GetStringValue
      (string * string * bool) MoreExamples.basicAuth
      MoreExamples.UserNameKey ∅ ("bob", "secret", true)
    = "bob".
Proof.
  destruct (getUserName_precedence (gmap string string)
              MoreExamples.GetStringValue (string * string * bool)
              MoreExamples.basicAuth MoreExamples.basicAuth
              MoreExamples.UserNameKey MoreExamples.withUser
              ("bob", "secret", true)) as (H1 & _).
  destruct (getUserName_precedence (gmap string string)
              MoreExamples.GetStringValue (string * string * bool)
              MoreExamples.basicAuth MoreExamples.basicAuth
              MoreExamples.UserNameKey ∅
              ("bob", "secret", true)) as (_ & H2 & _).
  split.
  - apply H1. vm_compute. discriminate.
  - apply H2. reflexivity.
Defined.

(** Witness of X20: the example index and an encoder that fails. *)
Lemma FromStruct_on_encoding_error_witness :
  piddle.FromStruct MoreExamples.failingMarshalIndent Examples.index
  = (Examples.fresh,
     Some (distribution.lib_error "encoding/json" "json: unsupported value"))
  ∧ piddle.MarshalJSON
      (piddle.FromStruct MoreExamples.failingMarshalIndent
         Examples.index).1
    = ([], Some UninitializedManifestError).
Proof.
  destruct (FromStruct_on_encoding_error MoreExamples.failingMarshalIndent
              Examples.index
              (distribution.lib_error "encoding/json"
                 "json: unsupported value")
              ltac:(reflexivity)) as (H1 & H2 & _).
  split; [exact H1 | exact H2].
Defined.
